(** * Tanim AI backend: the chat turn, the history window and the reply stub

    A shallow embedding of [main.py].  Python [str] values are sequences of
    Unicode code points, documents are Python dicts with string keys, and
    the request handlers run in a small state-and-exception monad over the
    process' world: the storage handle [db], the wall clock read by
    [datetime.now(timezone.utc)], the record of storage accesses and the way
    the response model reads a string as a datetime. *)

From stdpp Require Import gmap strings list fin_maps.

Open Scope N_scope.
Open Scope nat_scope.

(** ** Python strings *)

Module PyStr.

(** A [str] is a sequence of code points; [len] counts code points and a
    slice [s[:n]] keeps the first [n] of them. *)
Abbreviation str := (list N).

(** An ASCII literal of the source, one code point per character. *)
Fixpoint lit (s : string) : str :=
  match s with
  | EmptyString => []
  | String a s' => Ascii.N_of_ascii a :: lit s'
  end.

(** [str.isspace] on one code point: the characters [str.strip()] removes. *)
Definition isspace (c : N) : bool :=
  ((9 <=? c) && (c <=? 13) || (28 <=? c) && (c <=? 32)
   || (c =? 133) || (c =? 160) || (c =? 5760)
   || (8192 <=? c) && (c <=? 8202)
   || (c =? 8232) || (c =? 8233) || (c =? 8239) || (c =? 8287)
   || (c =? 12288))%N.

Fixpoint dropwhile {A} (p : A -> bool) (l : list A) : list A :=
  match l with
  | [] => []
  | x :: l' => if p x then dropwhile p l' else l
  end.

Definition lstrip (s : str) : str := dropwhile isspace s.
Definition rstrip (s : str) : str := reverse (dropwhile isspace (reverse s)).

(** [s.strip()] *)
Definition strip (s : str) : str := rstrip (lstrip s).

(** Truthiness of a string: [not s] holds exactly for the empty string. *)
Definition truthy (s : str) : bool :=
  match s with [] => false | _ :: _ => true end.

Definition dquote : N := 34%N.
Definition newline : N := 10%N.

End PyStr.
Import PyStr.

(** ** The reply stub ([generate_reply]) *)

Definition fallback_reply : str :=
  lit "I'm here. Ask me anything about code, ideas, or tech.".

(** First literal of the template: U+26A1, " Tanim AI ", U+2022, " Insight", newline. *)
Definition reply_header : str :=
  [9889%N] ++ lit " Tanim AI " ++ [8226%N] ++ lit " Insight" ++ [newline].

(** The f-string [f"You said: \"{summary_hint}\"\n\n"]. *)
Definition echo_line (summary_hint : str) : str :=
  lit "You said: " ++ [dquote] ++ summary_hint ++ [dquote; newline; newline].

(** The two closing literals. *)
Definition reply_closing : str :=
  lit "Here's a thoughtful response: I can help you plan, outline, and implement this. "
  ++ lit "If you'd like, ask for a step-by-step plan or a quick prototype.".

Definition generate_reply (user_text : str) : str :=
  if negb (truthy (strip user_text)) then fallback_reply
  else
    let summary_hint := strip user_text in
    let summary_hint :=
      if 120 <? length summary_hint
      then take 117 summary_hint ++ lit "..."
      else summary_hint in
    reply_header ++ echo_line summary_hint ++ reply_closing.

(** ** Documents *)

(** The values this program stores in a document: [str], [datetime]
    (microseconds since the epoch, UTC) and [None]. *)
Inductive Value : Type :=
| VStr (s : str)
| VTime (t : Z)
| VNone.

Global Instance Value_eq_dec : EqDecision Value.
Proof. solve_decision. Defined.

(** A document is a Python dict with string keys. *)
Abbreviation Doc := (gmap string Value).

(** [d.get(k)] and [d.get(k, default)]. *)
Definition get (d : Doc) (k : string) : Value := default VNone (d !! k).
Definition get_or (d : Doc) (k : string) (dflt : Value) : Value :=
  default dflt (d !! k).

(** ** The world a request handler runs in *)

Inductive Access : Type :=
| Create (collection_name : string) (data : Doc)
| Find (collection_name : string) (filter_dict : Doc) (limit : nat).

Record World : Type := {
  db : option (gmap string (list Doc));
    (* the storage handle: [None], or the collections with their documents
       in insertion order *)
  clock : nat -> Z;      (* successive readings of the wall clock *)
  ticks : nat;           (* number of readings taken so far *)
  faults : nat -> bool;  (* [faults n]: the n-th storage access fails *)
  accesses : list Access; (* storage accesses so far, oldest first *)
  parse_datetime : str -> option Z
    (* how a response model reads a string given for a [datetime] field:
       the instant it stands for, or [None] when it is rejected *)
}.

Inductive Error : Type :=
| HTTPException (status_code : Z) (detail : str)
| RequestValidationError (* the request body fails its model *)
| ValidationError        (* a response model field fails validation *)
| StorageError.

Inductive Result (A : Type) : Type :=
| Ok (a : A)
| Raise (e : Error).
Arguments Ok {A} a.
Arguments Raise {A} e.

(** Handlers thread the world and may raise; the world changes made before
    an exception are kept. *)
Definition M (A : Type) : Type := World -> Result A * World.

Global Instance M_ret : MRet M := fun A a w => (Ok a, w).
Global Instance M_bind : MBind M := fun A B f m w =>
  match m w with
  | (Ok a, w') => f a w'
  | (Raise e, w') => (Raise e, w')
  end.

Definition raise {A} (e : Error) : M A := fun w => (Raise e, w).

Fixpoint mapM {A B} (f : A -> M B) (l : list A) : M (list B) :=
  match l with
  | [] => mret []
  | x :: l' => y ← f x; ys ← mapM f l'; mret (y :: ys)
  end.

(** [datetime.now(timezone.utc)] *)
Definition now : M Z := fun w =>
  (Ok (clock w (ticks w)),
   {| db := db w; clock := clock w; ticks := S (ticks w);
      faults := faults w; accesses := accesses w;
      parse_datetime := parse_datetime w |}).

(** [db is None] *)
Definition db_is_None : M bool := fun w =>
  (Ok (match db w with None => true | Some _ => false end), w).

(** ** The storage collaborator *)

Definition matches (filter_dict d : Doc) : Prop :=
  map_Forall (fun k v => d !! k = Some v) filter_dict.

Definition last_n {A} (n : nat) (l : list A) : list A :=
  drop (length l - n) l.

Definition logged (a : Access) (w : World) : World :=
  {| db := db w; clock := clock w; ticks := ticks w;
     faults := faults w; accesses := accesses w ++ [a];
     parse_datetime := parse_datetime w |}.

(** Modelled from the spec: [create_document] of the absent [database]
    module.  It persists one record in the named collection; a failure
    propagates as a generic storage error and persists nothing. *)
Definition create_document (collection_name : string) (data : Doc) : M unit :=
  fun w =>
    match db w with
    | None => (Raise StorageError, w)
    | Some store =>
        let w' := logged (Create collection_name data) w in
        if faults w (length (accesses w)) then (Raise StorageError, w')
        else (Ok tt,
              {| db := Some (<[collection_name :=
                                 default [] (store !! collection_name) ++ [data]]> store);
                 clock := clock w'; ticks := ticks w';
                 faults := faults w'; accesses := accesses w';
                 parse_datetime := parse_datetime w' |})
    end.

(** Modelled from the spec: [get_documents] of the absent [database]
    module.  It returns up to [limit] records of the named collection that
    match the filter, an exact-match predicate over named fields; they are
    the most recent ones within the limit, in insertion order. *)
Definition get_documents (collection_name : string) (filter_dict : Doc)
    (limit : nat) : M (list Doc) :=
  fun w =>
    match db w with
    | None => (Raise StorageError, w)
    | Some store =>
        let w' := logged (Find collection_name filter_dict limit) w in
        if faults w (length (accesses w)) then (Raise StorageError, w')
        else (Ok (last_n limit
                    (filter (matches filter_dict)
                       (default [] (store !! collection_name)))), w')
    end.

(** ** Request and response models *)

Module ChatRequest.
Record t : Type := { session_id : str; message : str; model : option str }.

(** [message: str = Field(..., min_length=1)] *)
Definition validate (r : t) : bool := 1 <=? length (message r).
End ChatRequest.

Module ChatMessage.
Record t : Type := { role : str; content : str; created_at : Z }.

(** What a [datetime] field makes of a value: a datetime is taken as it
    is, a string is parsed, [None] is rejected. *)
Definition as_datetime (parse : str -> option Z) (v : Value) : option Z :=
  match v with
  | VTime ts => Some ts
  | VStr s => parse s
  | VNone => None
  end.

(** Construction validates the fields: [role] and [content] must be [str],
    [created_at] a [datetime] or a string that parses as one. *)
Definition init (role content created_at : Value) : M t :=
  fun w =>
    match role, content, as_datetime (parse_datetime w) created_at with
    | VStr r, VStr c, Some ts =>
        (Ok {| role := r; content := c; created_at := ts |}, w)
    | _, _, _ => (Raise ValidationError, w)
    end.
End ChatMessage.

Module ChatResponse.
Record t : Type := { session_id : str; messages : list ChatMessage.t }.
End ChatResponse.

(** ** The handlers *)

(** [req.model or "tanim-stub"] *)
Definition model_or_stub (model : option str) : str :=
  match model with
  | Some m => if truthy m then m else lit "tanim-stub"
  | None => lit "tanim-stub"
  end.

(** One element of the comprehension building the response messages. *)
Definition to_message (d : Doc) : M ChatMessage.t :=
  t ← now;
  ChatMessage.init (get d "role") (get d "content")
    (get_or d "created_at" (VTime t)).

Definition chat (req : ChatRequest.t) : M ChatResponse.t :=
  none ← db_is_None;
  if none : bool
  then raise (HTTPException 500 (lit "Database not configured"))
  else
    t1 ← now;
    t2 ← now;
    let user_doc : Doc :=
      {[ "session_id" := VStr (ChatRequest.session_id req);
         "role" := VStr (lit "user");
         "content" := VStr (ChatRequest.message req);
         "model" := VStr (model_or_stub (ChatRequest.model req));
         "created_at" := VTime t1;
         "updated_at" := VTime t2 ]} in
    create_document "message" user_doc;;
    let reply_text := generate_reply (ChatRequest.message req) in
    t3 ← now;
    t4 ← now;
    let asst_doc : Doc :=
      {[ "session_id" := VStr (ChatRequest.session_id req);
         "role" := VStr (lit "assistant");
         "content" := VStr reply_text;
         "model" := VStr (model_or_stub (ChatRequest.model req));
         "created_at" := VTime t3;
         "updated_at" := VTime t4 ]} in
    create_document "message" asst_doc;;
    docs ← get_documents "message"
             {[ "session_id" := VStr (ChatRequest.session_id req) ]} 50;
    messages ← mapM to_message docs;
    mret {| ChatResponse.session_id := ChatRequest.session_id req;
            ChatResponse.messages := messages |}.

(** The route [POST /api/chat]: the body is validated against
    [ChatRequest] before the handler runs. *)
Definition post_api_chat (body : ChatRequest.t) : M ChatResponse.t :=
  if ChatRequest.validate body then chat body
  else raise RequestValidationError.

Definition history (session_id : str) : M ChatResponse.t :=
  none ← db_is_None;
  if none : bool
  then raise (HTTPException 500 (lit "Database not configured"))
  else
    docs ← get_documents "message" {[ "session_id" := VStr session_id ]} 50;
    messages ← mapM to_message docs;
    mret {| ChatResponse.session_id := session_id;
            ChatResponse.messages := messages |}.

(** * Vocabulary of the statements *)

(** The reply quotes [quoted] in its echo line, between the fixed header
    and the fixed closing paragraph. *)
Definition echoes (reply quoted : str) : Prop :=
  reply = reply_header ++ echo_line quoted ++ reply_closing.

(** The documents of a collection, oldest first ([[]] without a store). *)
Definition stored (w : World) (collection_name : string) : list Doc :=
  match db w with
  | Some store => default [] (store !! collection_name)
  | None => []
  end.

(** The world after [n] more clock readings. *)
Definition advance (n : nat) (w : World) : World :=
  {| db := db w; clock := clock w; ticks := n + ticks w;
     faults := faults w; accesses := accesses w;
     parse_datetime := parse_datetime w |}.

(** What the comprehension makes of a document when the clock reads [t]
    and strings are read as datetimes by [parse]. *)
Definition message_of (parse : str -> option Z) (d : Doc) (t : Z) :
    option ChatMessage.t :=
  match get d "role", get d "content",
        ChatMessage.as_datetime parse (get_or d "created_at" (VTime t)) with
  | VStr r, VStr c, Some ts =>
      Some {| ChatMessage.role := r; ChatMessage.content := c;
              ChatMessage.created_at := ts |}
  | _, _, _ => None
  end.

(** The two dict literals of [chat]. *)
Definition user_doc_of (req : ChatRequest.t) (t1 t2 : Z) : Doc :=
  {[ "session_id" := VStr (ChatRequest.session_id req);
     "role" := VStr (lit "user");
     "content" := VStr (ChatRequest.message req);
     "model" := VStr (model_or_stub (ChatRequest.model req));
     "created_at" := VTime t1;
     "updated_at" := VTime t2 ]}.

Definition asst_doc_of (req : ChatRequest.t) (t3 t4 : Z) : Doc :=
  {[ "session_id" := VStr (ChatRequest.session_id req);
     "role" := VStr (lit "assistant");
     "content" := VStr (generate_reply (ChatRequest.message req));
     "model" := VStr (model_or_stub (ChatRequest.model req));
     "created_at" := VTime t3;
     "updated_at" := VTime t4 ]}.

Definition session_filter (session_id : str) : Doc :=
  {[ "session_id" := VStr session_id ]}.

(** The world in which [chat] builds its response: both documents are
    stored, four clock readings were taken, three accesses were made. *)
Definition after_writes (req : ChatRequest.t) (w : World) : World :=
  let u := user_doc_of req (clock w (ticks w)) (clock w (1 + ticks w)) in
  let a := asst_doc_of req (clock w (2 + ticks w)) (clock w (3 + ticks w)) in
  {| db := match db w with
           | Some store =>
               Some (<["message" := default [] (store !! "message") ++ [u; a]]> store)
           | None => None
           end;
     clock := clock w; ticks := 4 + ticks w; faults := faults w;
     accesses := accesses w ++
       [Create "message" u; Create "message" a;
        Find "message" (session_filter (ChatRequest.session_id req)) 50];
     parse_datetime := parse_datetime w |}.

Definition chat_window (req : ChatRequest.t) (w : World) : list Doc :=
  last_n 50
    (filter (matches (session_filter (ChatRequest.session_id req)))
       (stored (after_writes req w) "message")).

Definition no_faults (w : World) (n : nat) : Prop :=
  forall i, i < n -> faults w (i + length (accesses w)) = false.

Definition history_window (session_id : str) (w : World) : list Doc :=
  last_n 50 (filter (matches (session_filter session_id)) (stored w "message")).

(** A stored document the response model accepts: [role] and [content] are
    strings, [created_at] is a datetime or is missing. *)
Definition message_like (d : Doc) : Prop :=
  (exists r, d !! "role" = Some (VStr r)) /\
  (exists c, d !! "content" = Some (VStr c)) /\
  (d !! "created_at" = None \/ exists t, d !! "created_at" = Some (VTime t)).

(** ** Scenarios *)

Definition is_ok {A} (r : Result A) : bool :=
  match r with Ok _ => true | Raise _ => false end.

Definition result_or {A} (dflt : A) (r : Result A) : A :=
  match r with Ok a => a | Raise _ => dflt end.

Definition no_response : ChatResponse.t :=
  {| ChatResponse.session_id := []; ChatResponse.messages := [] |}.

(** A configured, empty store; the clock starts at the epoch and moves by
    one microsecond per reading. *)
Definition fresh_world : World :=
  {| db := Some ∅;
     clock := Z.of_nat;
     ticks := 0; faults := fun _ => false; accesses := [];
     parse_datetime := fun _ => None |}.

Definition unconfigured_world : World :=
  {| db := None;
     clock := Z.of_nat;
     ticks := 0; faults := fun _ => false; accesses := [];
     parse_datetime := fun _ => None |}.

Definition hello_request : ChatRequest.t :=
  {| ChatRequest.session_id := lit "s1"; ChatRequest.message := lit "hello";
     ChatRequest.model := None |}.

Definition other_request : ChatRequest.t :=
  {| ChatRequest.session_id := lit "s2"; ChatRequest.message := lit "hello";
     ChatRequest.model := Some (lit "tanim-2") |}.

Definition empty_request : ChatRequest.t :=
  {| ChatRequest.session_id := lit "s1"; ChatRequest.message := [];
     ChatRequest.model := None |}.

(** [n] chat turns in a row. *)
Definition turns (n : nat) (req : ChatRequest.t) (w : World) : World :=
  Nat.iter n (fun w => snd (post_api_chat req w)) w.

(** A store holding one document written without [created_at]. *)
Definition legacy_world : World :=
  {| db := Some {[ "message" :=
                     [ ({[ "session_id" := VStr (lit "s1");
                           "role" := VStr (lit "user");
                           "content" := VStr (lit "old") ]} : Doc) ] ]};
     clock := Z.of_nat;
     ticks := 7; faults := fun _ => false; accesses := [];
     parse_datetime := fun _ => None |}.

(** ** Vocabulary of the further properties *)

(** A document with a datetime under [created_at]. *)
Definition dated (d : Doc) : Prop :=
  exists t, d !! "created_at" = Some (VTime t).

(** The store is configured and answers every access, and each stored
    message is one the response model accepts. *)
Definition healthy (w : World) : Prop :=
  db w <> None /\ (forall n, faults w n = false) /\
  Forall message_like (stored w "message").

(** The stored documents of a session, oldest first. *)
Definition session_docs (session_id : str) (w : World) : list Doc :=
  filter (matches (session_filter session_id)) (stored w "message").

(** ** The diagnostic endpoint ([test_database]) *)

(** The values of the diagnostic payload: strings, [None], a list of names. *)
Inductive Json : Type :=
| JStr (s : str)
| JNull
| JList (l : list str).

(** What reading an attribute of the handle does: it is missing, it has a
    value, or its getter raises an exception with the given [str(e)]. *)
Inductive Attr : Type :=
| AttrMissing
| AttrValue (v : str)
| AttrRaises (e : str).

(** The storage handle as [test_database] uses it: its [name] attribute and
    what [list_collection_names()] returns or the [str(e)] it raises. *)
Module Database.
Record t : Type := {
  name : Attr;
  list_collection_names : list str + str
}.
End Database.

Definition check_mark : str := [9989%N].
Definition cross_mark : str := [10060%N].
Definition warning_sign : str := [9888%N; 65039%N].

(** Truthiness of [os.getenv(key)]: set, and not the empty string. *)
Definition env_set (getenv : string -> option str) (key : string) : bool :=
  match getenv key with
  | Some v => truthy v
  | None => false
  end.

Definition test_database (db : option Database.t)
    (getenv : string -> option str) : gmap string Json :=
  let response : gmap string Json :=
    {[ "backend" := JStr (check_mark ++ lit " Running");
       "database" := JStr (cross_mark ++ lit " Not Available");
       "database_url" := JNull;
       "database_name" := JNull;
       "connection_status" := JStr (lit "Not Connected");
       "collections" := JList [] ]} in
  let response :=
    match db with
    | Some d =>
        let response :=
          <["database" := JStr (check_mark ++ lit " Available")]> response in
        let response :=
          <["database_url" := JStr (check_mark ++ lit " Configured")]> response in
        match Database.name d with
        | AttrRaises e =>
            <["database" := JStr (cross_mark ++ lit " Error: " ++ take 50 e)]>
              response
        | attr =>
            let response :=
              <["database_name" :=
                  JStr (match attr with
                        | AttrValue v => v
                        | _ => check_mark ++ lit " Connected"
                        end)]> response in
            let response :=
              <["connection_status" := JStr (lit "Connected")]> response in
            match Database.list_collection_names d with
            | inl collections =>
                let response :=
                  <["collections" := JList (take 10 collections)]> response in
                <["database" := JStr (check_mark ++ lit " Connected & Working")]>
                  response
            | inr e =>
                <["database" :=
                    JStr (warning_sign ++ lit "  Connected but Error: "
                          ++ take 50 e)]> response
            end
        end
    | None =>
        <["database" :=
            JStr (warning_sign ++ lit "  Available but not initialized")]>
          response
    end in
  let response :=
    <["database_url" :=
        JStr (if env_set getenv "DATABASE_URL"
              then check_mark ++ lit " Set"
              else cross_mark ++ lit " Not Set")]> response in
  let response :=
    <["database_name" :=
        JStr (if env_set getenv "DATABASE_NAME"
              then check_mark ++ lit " Set"
              else cross_mark ++ lit " Not Set")]> response in
  response.

(** The collection names the handle lists, when it is there, its [name]
    can be read and the listing does not raise. *)
Definition introspected (db : option Database.t) : option (list str) :=
  match db with
  | Some d =>
      match Database.name d, Database.list_collection_names d with
      | AttrRaises _, _ => None
      | _, inl collections => Some collections
      | _, inr _ => None
      end
  | None => None
  end.

(** ** Further scenarios *)

(** A request whose message is whitespace only and whose model is the
    empty string. *)
Definition blank_request : ChatRequest.t :=
  {| ChatRequest.session_id := lit "s1";
     ChatRequest.message := [32%N; 9%N];
     ChatRequest.model := Some [] |}.

(** The store answers the first access and fails the second. *)
Definition second_access_fails : World :=
  {| db := Some ∅; clock := Z.of_nat; ticks := 0;
     faults := fun n => Nat.eqb n 1; accesses := [];
     parse_datetime := fun _ => None |}.

(** The store fails the first access. *)
Definition first_access_fails : World :=
  {| db := Some ∅; clock := Z.of_nat; ticks := 0;
     faults := fun n => Nat.eqb n 0; accesses := [];
     parse_datetime := fun _ => None |}.

(** A store holding a document of session "s1" without a [role]. *)
Definition broken_world : World :=
  {| db := Some {[ "message" :=
                     [ ({[ "session_id" := VStr (lit "s1");
                           "content" := VStr (lit "old") ]} : Doc) ] ]};
     clock := Z.of_nat; ticks := 0; faults := fun _ => false;
     accesses := [];
     parse_datetime := fun _ => None |}.

(** A store holding one document whose [created_at] is an ISO-8601 string,
    read by a parser that knows that one string (midnight, 1 January 2024,
    UTC). *)
Definition string_dated_world : World :=
  {| db := Some {[ "message" :=
                     [ ({[ "session_id" := VStr (lit "s1");
                           "role" := VStr (lit "user");
                           "content" := VStr (lit "old");
                           "created_at" := VStr (lit "2024-01-01T00:00:00Z") ]}
                        : Doc) ] ]};
     clock := Z.of_nat; ticks := 0; faults := fun _ => false; accesses := [];
     parse_datetime := fun s =>
       if bool_decide (s = lit "2024-01-01T00:00:00Z")
       then Some 1704067200000000%Z else None |}.

(** A handle whose listing raises with a long message, and no environment. *)
Definition failing_handle : Database.t :=
  {| Database.name := AttrValue (lit "tanim");
     Database.list_collection_names := inr (replicate 200 120%N) |}.

Definition no_env : string -> option str := fun _ => None.

(** * Properties *)

(** ** The reply stub *)

Section Strip.

Lemma dropwhile_all {A} (p : A -> bool) (l : list A) :
  Forall (fun x => p x = true) l -> dropwhile p l = [].
Proof. induction 1 as [|x l Hx _ IH]; simpl; [done|]. by rewrite Hx. Qed.

Lemma dropwhile_suffix {A} (p : A -> bool) (l : list A) :
  exists pre, l = pre ++ dropwhile p l.
Proof.
  induction l as [|x l [pre IH]]; simpl.
  - by exists [].
  - destruct (p x).
    + exists (x :: pre). simpl. by f_equal.
    + by exists [].
Qed.

Lemma rstrip_prefix (s : str) : exists post, s = rstrip s ++ post.
Proof.
  unfold rstrip. destruct (dropwhile_suffix isspace (reverse s)) as [pre E].
  exists (reverse pre).
  rewrite <- reverse_app, <- E. by rewrite reverse_involutive.
Qed.

Lemma strip_all_space (s : str) :
  Forall (fun c => isspace c = true) s -> strip s = [].
Proof.
  intros H. unfold strip, lstrip. by rewrite dropwhile_all.
Qed.

End Strip.

Example strip_both_sides : strip (lit "  hi there ") = lit "hi there".
Proof. reflexivity. Qed.

Example strip_keeps_inner_space :
  strip ([9%N; 10%N] ++ lit "a b" ++ [160%N; 8232%N]) = lit "a b".
Proof. reflexivity. Qed.

Example generate_reply_hello :
  generate_reply (lit "hello") =
    [9889%N] ++ lit " Tanim AI " ++ [8226%N] ++ lit " Insight" ++ [10%N] ++
    lit "You said: " ++ [34%N] ++ lit "hello" ++ [34%N; 10%N; 10%N] ++
    lit "Here's a thoughtful response: I can help you plan, outline, and implement this. If you'd like, ask for a step-by-step plan or a quick prototype.".
Proof. reflexivity. Qed.

Lemma generate_reply_short (s : str) :
  strip s <> [] -> length (strip s) <= 120 ->
  generate_reply s = reply_header ++ echo_line (strip s) ++ reply_closing.
Proof.
  intros Hne Hlen. unfold generate_reply.
  destruct (strip s) as [|c t] eqn:E; [done|]. cbn [truthy negb].
  by rewrite (proj2 (Nat.ltb_ge _ _) Hlen).
Qed.

Lemma generate_reply_long (s : str) :
  120 < length (strip s) ->
  generate_reply s =
    reply_header ++ echo_line (take 117 (strip s) ++ lit "...") ++ reply_closing.
Proof.
  intros Hlen. unfold generate_reply.
  destruct (strip s) as [|c t] eqn:E; [simpl in Hlen; lia|]. cbn [truthy negb].
  by rewrite (proj2 (Nat.ltb_lt _ _) Hlen).
Qed.

(** C4 (as amended): whenever the text left after stripping surrounding
    whitespace is non-empty and at most 120 characters long, the echo line
    quotes that stripped text verbatim; for an input without surrounding
    whitespace this is the full input. *)
Theorem generate_reply_echoes_stripped (user_text : str) :
  strip user_text <> [] -> length (strip user_text) <= 120 ->
  echoes (generate_reply user_text) (strip user_text) /\
  (strip user_text = user_text -> echoes (generate_reply user_text) user_text).
Proof.
  intros Hne Hlen.
  assert (echoes (generate_reply user_text) (strip user_text)) as H
    by (by apply generate_reply_short).
  split; [done|]. intros E. by rewrite E in H.
Qed.

Lemma generate_reply_echoes_stripped_witness :
  echoes (generate_reply (lit "  hello ")) (lit "hello") /\
  echoes (generate_reply (lit "hello")) (lit "hello").
Proof.
  split.
  - apply (generate_reply_echoes_stripped (lit "  hello ")); vm_compute; [done|lia].
  - apply (generate_reply_echoes_stripped (lit "hello"));
      [vm_compute; done | vm_compute; lia | reflexivity].
Defined.

(** C4, as stated, fails: a tab followed by "hi" is non-empty and has at
    most 120 characters, yet the echo line quotes "hi" only, and the input
    occurs nowhere in the reply. *)
Lemma generate_reply_padded_not_verbatim :
  let user_text := [9%N] ++ lit "hi" in
  user_text <> [] /\ length user_text <= 120 /\
  ~ echoes (generate_reply user_text) user_text /\
  ~ (exists pre post, generate_reply user_text = pre ++ user_text ++ post).
Proof.
  cbv zeta. split; [done|]. split; [vm_compute; lia|]. split.
  - intros H. apply (f_equal (fun l => l !! 32)) in H.
    vm_compute in H. discriminate H.
  - intros (pre & post & H).
    assert (9%N ∈ generate_reply ([9%N] ++ lit "hi")) as Hin.
    { rewrite H. apply elem_of_app. right. apply elem_of_app. left.
      apply list_elem_of_here. }
    revert Hin. apply (bool_decide_eq_false_1 _). by vm_compute.
Qed.

(** C5 (as amended): whenever the text left after stripping surrounding
    whitespace is longer than 120 characters, the echo line quotes exactly
    its first 117 characters followed by the three-character marker "...",
    120 characters in all and so never the whole stripped text; for an
    input without leading whitespace these are the first 117 characters of
    the input itself. *)
Theorem generate_reply_truncates_stripped (user_text : str) :
  120 < length (strip user_text) ->
  let quoted := take 117 (strip user_text) ++ lit "..." in
  echoes (generate_reply user_text) quoted /\
  length quoted = 120 /\
  quoted <> strip user_text /\
  quoted <> user_text /\
  (lstrip user_text = user_text -> take 117 (strip user_text) = take 117 user_text).
Proof.
  intros Hlen quoted.
  assert (length quoted = 120) as Hq.
  { unfold quoted. rewrite length_app, length_take.
    change (length (lit "...")) with 3. lia. }
  destruct (rstrip_prefix (lstrip user_text)) as [post Hpost].
  fold (strip user_text) in Hpost.
  destruct (dropwhile_suffix isspace user_text) as [pre Hpre].
  fold (lstrip user_text) in Hpre.
  split; [by apply generate_reply_long|]. split; [done|].
  split; [intros E; apply (f_equal length) in E; lia|]. split.
  - intros E. apply (f_equal length) in E.
    rewrite Hpre, Hpost, !length_app in E. lia.
  - intros E. rewrite E in Hpost. rewrite Hpost at 2.
    rewrite take_app_le; [done|lia].
Qed.

Lemma generate_reply_truncates_stripped_witness :
  let user_text := replicate 130 120%N in
  echoes (generate_reply user_text) (replicate 117 120%N ++ lit "...").
Proof.
  cbv zeta.
  apply (generate_reply_truncates_stripped (replicate 130 120%N)).
  vm_compute. lia.
Defined.

(** C5, as stated, fails: a space followed by 120 letters is 121 characters
    long, yet the reply quotes the 120 letters in full, without a marker,
    and not the first 117 characters of the input. *)
Lemma generate_reply_long_padded_not_truncated :
  let user_text := 32%N :: replicate 120 97%N in
  120 < length user_text /\
  echoes (generate_reply user_text) (replicate 120 97%N) /\
  ~ echoes (generate_reply user_text) (take 117 user_text ++ lit "...").
Proof.
  cbv zeta. split; [vm_compute; lia|]. split; [by vm_compute|].
  intros H. apply (f_equal (fun l => l !! 32)) in H.
  vm_compute in H. discriminate H.
Qed.

(** C6: an empty or all-whitespace text gets the fixed fallback string,
    exactly. *)
Theorem generate_reply_blank (user_text : str) :
  Forall (fun c => isspace c = true) user_text ->
  generate_reply user_text = fallback_reply.
Proof.
  intros H. unfold generate_reply. by rewrite strip_all_space.
Qed.

Lemma generate_reply_blank_witness :
  generate_reply [] = fallback_reply /\
  generate_reply [32%N; 9%N; 10%N; 160%N; 8195%N; 12288%N] = fallback_reply.
Proof.
  split.
  - apply (generate_reply_blank []). constructor.
  - apply (generate_reply_blank [32%N; 9%N; 10%N; 160%N; 8195%N; 12288%N]).
    repeat constructor.
Defined.

(** ** Running the handlers *)

Lemma bind_run {A B} (m : M A) (f : A -> M B) (w : World) :
  (m ≫= f) w =
    match m w with
    | (Ok a, w') => f a w'
    | (Raise e, w') => (Raise e, w')
    end.
Proof. reflexivity. Qed.

Lemma advance_S n w :
  advance n (snd (now w)) = advance (S n) w.
Proof. unfold advance, now. simpl. f_equal. lia. Qed.

Lemma advance_0 w : advance 0 w = w.
Proof. by destruct w. Qed.

Lemma to_message_run d w :
  to_message d w =
    (match message_of (parse_datetime w) d (clock w (ticks w)) with
     | Some m => Ok m
     | None => Raise ValidationError
     end, snd (now w)).
Proof.
  unfold to_message, message_of. rewrite bind_run. cbn [now fst snd].
  unfold ChatMessage.init. cbn [parse_datetime].
  destruct (get d "role"), (get d "content"); try reflexivity.
  by destruct (ChatMessage.as_datetime (parse_datetime w)
                 (get_or d "created_at" (VTime (clock w (ticks w))))).
Qed.

Lemma mapM_to_message_ok docs : forall w ms w',
  mapM to_message docs w = (Ok ms, w') ->
  w' = advance (length docs) w /\
  length ms = length docs /\
  forall i d, docs !! i = Some d ->
    exists m, ms !! i = Some m /\ message_of (parse_datetime w) d (clock w (i + ticks w)) = Some m.
Proof.
  induction docs as [|d docs IH]; intros w ms w' H.
  - injection H as <- <-. rewrite advance_0. split; [done|]. split; [done|].
    intros i d Hi. by rewrite lookup_nil in Hi.
  - cbn [mapM] in H. rewrite bind_run, to_message_run in H.
    destruct (message_of (parse_datetime w) d (clock w (ticks w))) as [m|] eqn:Em; [|done].
    rewrite bind_run in H.
    destruct (mapM to_message docs (snd (now w))) as [[ms'|e] w''] eqn:E; [|done].
    injection H as <- <-.
    destruct (IH _ _ _ E) as (-> & Hlen & Hall).
    split; [by rewrite advance_S|]. split; [simpl; by rewrite Hlen|].
    intros [|i] d' Hi; simpl in Hi.
    + injection Hi as <-. exists m. by split.
    + destruct (Hall i d' Hi) as (m' & H1 & H2). exists m'. split; [done|].
      simpl in H2. by rewrite Nat.add_succ_r in H2.
Qed.

Lemma mapM_to_message_run docs : forall w,
  (forall i d, docs !! i = Some d ->
     is_Some (message_of (parse_datetime w) d (clock w (i + ticks w)))) ->
  exists ms, mapM to_message docs w = (Ok ms, advance (length docs) w).
Proof.
  induction docs as [|d docs IH]; intros w Hall.
  - exists []. by rewrite advance_0.
  - destruct (Hall 0 d eq_refl) as [m Em]. simpl in Em.
    destruct (IH (snd (now w))) as [ms E].
    { intros i d' Hi. specialize (Hall (S i) d' Hi).
      simpl. by rewrite Nat.add_succ_r. }
    exists (m :: ms). cbn [mapM].
    rewrite bind_run, to_message_run, Em, bind_run, E.
    cbn [length]. by rewrite <- advance_S.
Qed.

Lemma create_document_run collection_name data w store :
  db w = Some store ->
  faults w (length (accesses w)) = false ->
  create_document collection_name data w =
    (Ok tt,
     {| db := Some (<[collection_name :=
                        default [] (store !! collection_name) ++ [data]]> store);
        clock := clock w; ticks := ticks w; faults := faults w;
        accesses := accesses w ++ [Create collection_name data];
        parse_datetime := parse_datetime w |}).
Proof. intros Hdb Hf. unfold create_document. by rewrite Hdb, Hf. Qed.

Lemma get_documents_run collection_name filter_dict limit w store :
  db w = Some store ->
  faults w (length (accesses w)) = false ->
  get_documents collection_name filter_dict limit w =
    (Ok (last_n limit
           (filter (matches filter_dict)
              (default [] (store !! collection_name)))),
     logged (Find collection_name filter_dict limit) w).
Proof. intros Hdb Hf. unfold get_documents. by rewrite Hdb, Hf. Qed.

Lemma chat_run req w :
  db w <> None -> no_faults w 3 ->
  chat req w =
    (messages ← mapM to_message (chat_window req w);
     mret {| ChatResponse.session_id := ChatRequest.session_id req;
             ChatResponse.messages := messages |}) (after_writes req w).
Proof.
  intros Hdb Hf. destruct (db w) as [store|] eqn:Edb; [clear Hdb|done].
  pose proof (Hf 0 ltac:(lia)) as F0.
  pose proof (Hf 1 ltac:(lia)) as F1.
  pose proof (Hf 2 ltac:(lia)) as F2. simpl in F0, F1, F2.
  unfold chat. rewrite bind_run. unfold db_is_None at 1. rewrite Edb.
  rewrite bind_run. cbn [now]. rewrite bind_run. cbn [now].
  cbn [db clock ticks faults accesses].
  rewrite bind_run.
  erewrite create_document_run; [|exact Edb|exact F0].
  rewrite bind_run. cbn [now]. rewrite bind_run. cbn [now].
  cbn [db clock ticks faults accesses].
  rewrite bind_run.
  erewrite create_document_run; [|reflexivity|]; cycle 1.
  { cbn [db clock ticks faults accesses]. rewrite length_app. simpl.
    rewrite <- F1. f_equal. lia. }
  cbn [db clock ticks faults accesses].
  rewrite lookup_insert_eq, insert_insert_eq. cbn [default from_option id].
  rewrite (bind_run (get_documents _ _ _)).
  erewrite get_documents_run; [|reflexivity|]; cycle 1.
  { cbn [db clock ticks faults accesses]. rewrite !length_app. simpl.
    rewrite <- F2. f_equal. lia. }
  rewrite lookup_insert_eq. cbn [default from_option id].
  unfold chat_window, stored, after_writes, logged.
  cbn [db clock ticks faults accesses]. rewrite Edb, lookup_insert_eq.
  cbn [default from_option id]. rewrite <- !app_assoc. reflexivity.
Qed.

Ltac run_chat H :=
  cbv beta iota zeta delta
    [chat mbind M_bind db_is_None now create_document get_documents logged
     db clock ticks faults accesses raise] in H.

Lemma chat_ok_inv req w resp w' :
  chat req w = (Ok resp, w') -> db w <> None /\ no_faults w 3.
Proof.
  intros H. destruct w as [[store|] ck tk fl acc pd]; cycle 1.
  { run_chat H. discriminate H. }
  split; [done|]. unfold no_faults. cbn [faults accesses].
  run_chat H.
  destruct (fl (length acc)) eqn:F0; [discriminate H|].
  rewrite length_app, Nat.add_1_r in H.
  destruct (fl (S (length acc))) eqn:F1; [discriminate H|].
  rewrite !length_app, !Nat.add_1_r in H.
  destruct (fl (S (S (length acc)))) eqn:F2; [discriminate H|].
  intros [|[|[|i]]] Hi; simpl; try done. lia.
Qed.

Lemma history_run session_id w :
  db w <> None -> no_faults w 1 ->
  history session_id w =
    (messages ← mapM to_message (history_window session_id w);
     mret {| ChatResponse.session_id := session_id;
             ChatResponse.messages := messages |})
      (logged (Find "message" (session_filter session_id) 50) w).
Proof.
  intros Hdb Hf. destruct (db w) as [store|] eqn:Edb; [clear Hdb|done].
  pose proof (Hf 0 ltac:(lia)) as F0. simpl in F0.
  unfold history. rewrite bind_run. unfold db_is_None at 1. rewrite Edb.
  rewrite (bind_run (get_documents _ _ _)).
  erewrite get_documents_run; [|exact Edb|exact F0].
  unfold history_window, stored. by rewrite Edb.
Qed.

Lemma history_ok_inv session_id w resp w' :
  history session_id w = (Ok resp, w') -> db w <> None /\ no_faults w 1.
Proof.
  intros H. destruct w as [[store|] ck tk fl acc pd]; cycle 1.
  { cbv in H. discriminate H. }
  split; [done|]. unfold no_faults. cbn [faults accesses].
  unfold history in H. rewrite bind_run in H. cbn [db_is_None db] in H.
  rewrite (bind_run (get_documents _ _ _)) in H.
  unfold get_documents in H. cbn [db faults accesses] in H.
  destruct (fl (length acc)) eqn:F0; [discriminate H|].
  intros [|i] Hi; simpl; [done|lia].
Qed.

Section Window.

Lemma length_last_n {A} (n : nat) (l : list A) : length (last_n n l) <= n.
Proof. unfold last_n. rewrite length_drop. lia. Qed.

Lemma last_n_app_2 {A} (n : nat) (l : list A) (x y : A) :
  last_n (2 + n) (l ++ [x; y]) = last_n n l ++ [x; y].
Proof.
  unfold last_n. rewrite length_app. cbn [length].
  replace (length l + 2 - (2 + n)) with (length l - n) by lia.
  apply drop_app_le. lia.
Qed.

Lemma user_doc_fields req t1 t2 :
  user_doc_of req t1 t2 !! "session_id" = Some (VStr (ChatRequest.session_id req)) /\
  user_doc_of req t1 t2 !! "role" = Some (VStr (lit "user")) /\
  user_doc_of req t1 t2 !! "content" = Some (VStr (ChatRequest.message req)) /\
  user_doc_of req t1 t2 !! "created_at" = Some (VTime t1).
Proof. unfold user_doc_of. repeat split; by simplify_map_eq. Qed.

Lemma asst_doc_fields req t3 t4 :
  asst_doc_of req t3 t4 !! "session_id" = Some (VStr (ChatRequest.session_id req)) /\
  asst_doc_of req t3 t4 !! "role" = Some (VStr (lit "assistant")) /\
  asst_doc_of req t3 t4 !! "content" =
    Some (VStr (generate_reply (ChatRequest.message req))) /\
  asst_doc_of req t3 t4 !! "created_at" = Some (VTime t3).
Proof. unfold asst_doc_of. repeat split; by simplify_map_eq. Qed.

Lemma matches_session_filter session_id (d : Doc) :
  matches (session_filter session_id) d <->
  d !! "session_id" = Some (VStr session_id).
Proof.
  unfold matches, session_filter.
  apply (map_Forall_singleton (fun k v => d !! k = Some v)).
Qed.

Lemma stored_after_writes req w :
  db w <> None ->
  stored (after_writes req w) "message" =
    stored w "message" ++
      [user_doc_of req (clock w (ticks w)) (clock w (1 + ticks w));
       asst_doc_of req (clock w (2 + ticks w)) (clock w (3 + ticks w))].
Proof.
  intros Hdb. unfold stored, after_writes. cbn [db].
  destruct (db w) as [store|]; [|done]. by rewrite lookup_insert_eq.
Qed.

Lemma stored_after_writes_other req w collection_name :
  collection_name <> "message" ->
  stored (after_writes req w) collection_name = stored w collection_name.
Proof.
  intros Hne. unfold stored, after_writes. cbn [db].
  destruct (db w) as [store|]; [|done]. by rewrite lookup_insert_ne.
Qed.

Lemma chat_window_split req w :
  db w <> None ->
  chat_window req w =
    last_n 48
      (filter (matches (session_filter (ChatRequest.session_id req)))
         (stored w "message")) ++
      [user_doc_of req (clock w (ticks w)) (clock w (1 + ticks w));
       asst_doc_of req (clock w (2 + ticks w)) (clock w (3 + ticks w))].
Proof.
  intros Hdb. unfold chat_window. rewrite stored_after_writes by done.
  rewrite filter_app.
  rewrite (filter_cons_True _ (user_doc_of _ _ _)); cycle 1.
  { apply matches_session_filter, user_doc_fields. }
  rewrite (filter_cons_True _ (asst_doc_of _ _ _)); cycle 1.
  { apply matches_session_filter, asst_doc_fields. }
  rewrite filter_nil. apply (last_n_app_2 48).
Qed.

End Window.

Lemma mapM_app {A B} (f : A -> M B) (l1 l2 : list A) : forall w ys w',
  mapM f (l1 ++ l2) w = (Ok ys, w') ->
  exists ys1 ys2 w1,
    mapM f l1 w = (Ok ys1, w1) /\ mapM f l2 w1 = (Ok ys2, w') /\
    ys = ys1 ++ ys2.
Proof.
  induction l1 as [|x l1 IH]; intros w ys w' H.
  - by exists [], ys, w.
  - cbn [app mapM] in H. rewrite bind_run in H.
    destruct (f x w) as [[y|e] wx] eqn:Ex; [|done].
    rewrite bind_run in H.
    destruct (mapM f (l1 ++ l2) wx) as [[ys'|e] w''] eqn:E; [|done].
    injection H as <- <-.
    destruct (IH _ _ _ E) as (ys1 & ys2 & w1 & H1 & H2 & ->).
    exists (y :: ys1), ys2, w1. split; [|done].
    cbn [mapM]. by rewrite bind_run, Ex, bind_run, H1.
Qed.

Lemma post_api_chat_ok req w resp w' :
  post_api_chat req w = (Ok resp, w') ->
  ChatRequest.validate req = true /\ db w <> None /\ no_faults w 3 /\
  ChatResponse.session_id resp = ChatRequest.session_id req /\
  mapM to_message (chat_window req w) (after_writes req w) =
    (Ok (ChatResponse.messages resp), w').
Proof.
  unfold post_api_chat. intros H.
  destruct (ChatRequest.validate req); [|done]. split; [done|].
  destruct (chat_ok_inv _ _ _ _ H) as [Hdb Hf]. do 2 (split; [done|]).
  rewrite chat_run, bind_run in H by done.
  destruct (mapM to_message _ _) as [[ms|e] w''] eqn:E; [|done].
  by injection H as <- <-.
Qed.

(** ** The chat turn and the history window *)

(** C1: a successful [POST /api/chat] makes exactly two writes, the user
    document and then the assistant document, before its one read; both
    land in the [message] collection in that order, carry the request's
    session id, and the assistant document carries the generated reply. *)
Theorem chat_writes_user_then_assistant req w resp w' :
  post_api_chat req w = (Ok resp, w') ->
  exists u a : Doc,
    accesses w' =
      accesses w ++
        [Create "message" u; Create "message" a;
         Find "message" (session_filter (ChatRequest.session_id req)) 50] /\
    stored w' "message" = stored w "message" ++ [u; a] /\
    (forall c, c <> "message" -> stored w' c = stored w c) /\
    u !! "session_id" = Some (VStr (ChatRequest.session_id req)) /\
    u !! "role" = Some (VStr (lit "user")) /\
    u !! "content" = Some (VStr (ChatRequest.message req)) /\
    a !! "session_id" = Some (VStr (ChatRequest.session_id req)) /\
    a !! "role" = Some (VStr (lit "assistant")) /\
    a !! "content" = Some (VStr (generate_reply (ChatRequest.message req))).
Proof.
  intros H. destruct (post_api_chat_ok _ _ _ _ H) as (_ & Hdb & _ & _ & Hm).
  apply mapM_to_message_ok in Hm as (-> & _ & _).
  exists (user_doc_of req (clock w (ticks w)) (clock w (1 + ticks w))),
         (asst_doc_of req (clock w (2 + ticks w)) (clock w (3 + ticks w))).
  split; [reflexivity|].
  split; [by apply stored_after_writes|].
  split; [intros c Hc; by apply stored_after_writes_other|].
  destruct (user_doc_fields req (clock w (ticks w)) (clock w (1 + ticks w)))
    as (? & ? & ? & _).
  destruct (asst_doc_fields req (clock w (2 + ticks w)) (clock w (3 + ticks w)))
    as (? & ? & ? & _).
  by repeat split.
Qed.

(** C2: without a storage handle, the chat handler (hence the chat route on
    any body that passes validation) and the history handler raise HTTP 500
    with the fixed detail, and leave the world, storage accesses included,
    as it was. *)
Theorem not_configured_is_500 w :
  db w = None ->
  (forall req,
     chat req w =
       (Raise (HTTPException 500 (lit "Database not configured")), w)) /\
  (forall req, ChatRequest.validate req = true ->
     post_api_chat req w =
       (Raise (HTTPException 500 (lit "Database not configured")), w)) /\
  (forall session_id,
     history session_id w =
       (Raise (HTTPException 500 (lit "Database not configured")), w)).
Proof.
  intros Hdb.
  assert (forall req,
     chat req w =
       (Raise (HTTPException 500 (lit "Database not configured")), w)) as Hc.
  { intros req. unfold chat. rewrite bind_run. unfold db_is_None.
    by rewrite Hdb. }
  split; [done|]. split.
  - intros req Hv. unfold post_api_chat. by rewrite Hv.
  - intros sid. unfold history. rewrite bind_run. unfold db_is_None.
    by rewrite Hdb.
Qed.

(** C3: a body whose message is the empty string is rejected by the request
    model before the handler runs: the world, and with it the store and the
    record of storage accesses, is unchanged. *)
Theorem empty_message_rejected req w :
  ChatRequest.message req = [] ->
  post_api_chat req w = (Raise RequestValidationError, w).
Proof.
  intros H. unfold post_api_chat, ChatRequest.validate. by rewrite H.
Qed.

Lemma message_of_user_doc parse req t1 t2 t :
  message_of parse (user_doc_of req t1 t2) t =
    Some {| ChatMessage.role := lit "user";
            ChatMessage.content := ChatRequest.message req;
            ChatMessage.created_at := t1 |}.
Proof.
  destruct (user_doc_fields req t1 t2) as (_ & Hr & Hc & Ht).
  unfold message_of, get, get_or. by rewrite Hr, Hc, Ht.
Qed.

Lemma message_of_asst_doc parse req t3 t4 t :
  message_of parse (asst_doc_of req t3 t4) t =
    Some {| ChatMessage.role := lit "assistant";
            ChatMessage.content := generate_reply (ChatRequest.message req);
            ChatMessage.created_at := t3 |}.
Proof.
  destruct (asst_doc_fields req t3 t4) as (_ & Hr & Hc & Ht).
  unfold message_of, get, get_or. by rewrite Hr, Hc, Ht.
Qed.

Lemma chat_messages_split req w resp w' :
  post_api_chat req w = (Ok resp, w') ->
  exists older,
    ChatResponse.messages resp =
      older ++
        [{| ChatMessage.role := lit "user";
            ChatMessage.content := ChatRequest.message req;
            ChatMessage.created_at := clock w (ticks w) |};
         {| ChatMessage.role := lit "assistant";
            ChatMessage.content := generate_reply (ChatRequest.message req);
            ChatMessage.created_at := clock w (2 + ticks w) |}] /\
    length (ChatResponse.messages resp) <= 50.
Proof.
  intros H. destruct (post_api_chat_ok _ _ _ _ H) as (_ & Hdb & _ & _ & Hm).
  pose proof (mapM_to_message_ok _ _ _ _ Hm) as (_ & Hlen & _).
  rewrite chat_window_split in Hm by done.
  apply mapM_app in Hm as (older & new & w1 & _ & Hnew & E).
  exists older. split.
  - rewrite E. f_equal. cbn [mapM] in Hnew.
    rewrite bind_run, to_message_run, message_of_user_doc in Hnew.
    rewrite bind_run, bind_run, to_message_run, message_of_asst_doc in Hnew.
    cbn in Hnew. by injection Hnew as <- _.
  - rewrite Hlen. apply length_last_n.
Qed.

(** C8: a successful [GET /api/history] returns at most 50 messages,
    however many documents the session has in the store. *)
Theorem history_at_most_50 session_id w resp w' :
  history session_id w = (Ok resp, w') ->
  length (ChatResponse.messages resp) <= 50.
Proof.
  intros H. destruct (history_ok_inv _ _ _ _ H) as [Hdb Hf].
  rewrite history_run, bind_run in H by done.
  destruct (mapM to_message _ _) as [[ms|e] w''] eqn:E; [|done].
  injection H as <- <-. cbn [ChatResponse.messages].
  apply mapM_to_message_ok in E as (_ & -> & _). apply length_last_n.
Qed.

(** C9: the response of a successful [POST /api/chat] ends with the two
    messages of the turn, the images of the two documents the call appended
    to the store, and holds at most 50 messages. *)
Theorem chat_response_ends_with_turn req w resp w' :
  post_api_chat req w = (Ok resp, w') ->
  exists (u a : Doc) (mu ma : ChatMessage.t) (older : list ChatMessage.t),
    stored w' "message" = stored w "message" ++ [u; a] /\
    (forall parse t, message_of parse u t = Some mu) /\
    (forall parse t, message_of parse a t = Some ma) /\
    ChatMessage.role mu = lit "user" /\
    ChatMessage.content mu = ChatRequest.message req /\
    ChatMessage.role ma = lit "assistant" /\
    ChatMessage.content ma = generate_reply (ChatRequest.message req) /\
    ChatResponse.messages resp = older ++ [mu; ma] /\
    length (ChatResponse.messages resp) <= 50.
Proof.
  intros H. destruct (chat_messages_split _ _ _ _ H) as (older & E & Hlen).
  destruct (post_api_chat_ok _ _ _ _ H) as (_ & Hdb & _ & _ & Hm).
  apply mapM_to_message_ok in Hm as (-> & _ & _).
  eexists (user_doc_of req _ _), (asst_doc_of req _ _), _, _, older.
  split; [by apply stored_after_writes|].
  split; [intros parse t; apply message_of_user_doc|].
  split; [intros parse t; apply message_of_asst_doc|].
  by repeat split.
Qed.

Lemma message_of_like parse d t :
  message_like d ->
  exists m, message_of parse d t = Some m /\
    (d !! "created_at" = None -> ChatMessage.created_at m = t).
Proof.
  intros ([r Hr] & [c Hc] & [Ht | [t' Ht]]);
    unfold message_of, get, get_or; rewrite Hr, Hc, Ht; cbn [default from_option id].
  - eexists. by split.
  - eexists. by split.
Qed.

Lemma mapM_to_message_like docs w :
  Forall message_like docs ->
  exists ms,
    mapM to_message docs w = (Ok ms, advance (length docs) w) /\
    forall i d, docs !! i = Some d -> d !! "created_at" = None ->
      exists m, ms !! i = Some m /\
        ChatMessage.created_at m = clock w (i + ticks w).
Proof.
  intros Hall.
  destruct (mapM_to_message_run docs w) as [ms E].
  { intros i d Hi.
    destruct (message_of_like (parse_datetime w) d (clock w (i + ticks w))) as (m & -> & _);
      [|done].
    rewrite Forall_lookup in Hall. by apply (Hall i). }
  exists ms. split; [done|]. intros i d Hi Hnone.
  destruct (mapM_to_message_ok _ _ _ _ E) as (_ & _ & Hms).
  destruct (Hms i d Hi) as (m & Hm & Hof). exists m. split; [done|].
  destruct (message_of_like (parse_datetime w) d (clock w (i + ticks w))) as (m' & Hof' & Hc).
  { rewrite Forall_lookup in Hall. by apply (Hall i). }
  rewrite Hof in Hof'. injection Hof' as ->. by apply Hc.
Qed.

(** C10: when the store is available and answers, and the documents of the
    window have string [role] and [content], both routes succeed even if
    some of them lack [created_at]; each such message gets the clock
    reading taken while it is built. *)
Theorem missing_created_at_defaults_to_now :
  (forall session_id w,
     db w <> None -> no_faults w 1 ->
     Forall message_like (history_window session_id w) ->
     exists resp w',
       history session_id w = (Ok resp, w') /\
       forall i d,
         history_window session_id w !! i = Some d ->
         d !! "created_at" = None ->
         exists m, ChatResponse.messages resp !! i = Some m /\
           ChatMessage.created_at m = clock w (i + ticks w)) /\
  (forall req w,
     ChatRequest.validate req = true ->
     db w <> None -> no_faults w 3 ->
     Forall message_like (chat_window req w) ->
     exists resp w',
       post_api_chat req w = (Ok resp, w') /\
       forall i d,
         chat_window req w !! i = Some d ->
         d !! "created_at" = None ->
         exists m, ChatResponse.messages resp !! i = Some m /\
           ChatMessage.created_at m = clock w (i + (4 + ticks w))).
Proof.
  split.
  - intros sid w Hdb Hf Hall.
    destruct (mapM_to_message_like _
                (logged (Find "message" (session_filter sid) 50) w) Hall)
      as (ms & E & Hms).
    eexists _, _. rewrite history_run, bind_run, E by done.
    split; [reflexivity|]. exact Hms.
  - intros req w Hv Hdb Hf Hall.
    destruct (mapM_to_message_like _ (after_writes req w) Hall)
      as (ms & E & Hms).
    eexists _, _. unfold post_api_chat. rewrite Hv.
    rewrite chat_run, bind_run, E by done.
    split; [reflexivity|]. exact Hms.
Qed.

Lemma run_ok {A} (dflt : A) (x : Result A * World) :
  is_ok (fst x) = true -> x = (Ok (result_or dflt (fst x)), snd x).
Proof. destruct x as [[a|e] w]; [reflexivity|discriminate]. Qed.

(** ** The scenarios, run *)

(** History of a session without messages: an empty list, not an error. *)
Example history_without_messages :
  fst (history (lit "s1") fresh_world) =
    Ok {| ChatResponse.session_id := lit "s1"; ChatResponse.messages := [] |}.
Proof. reflexivity. Qed.

(** A string under [created_at] is parsed: the message carries the instant
    it stands for; a string the parser rejects fails the response model. *)
Example string_created_at_is_parsed :
  fst (history (lit "s1") string_dated_world) =
    Ok {| ChatResponse.session_id := lit "s1";
          ChatResponse.messages :=
            [{| ChatMessage.role := lit "user";
                ChatMessage.content := lit "old";
                ChatMessage.created_at := 1704067200000000 |}] |} /\
  fst (history (lit "s1")
         {| db := db string_dated_world; clock := Z.of_nat; ticks := 0;
            faults := fun _ => false; accesses := [];
            parse_datetime := fun _ => None |}) = Raise ValidationError.
Proof. split; reflexivity. Qed.

(** A failing assistant write leaves the user document stored. *)
Example assistant_write_fails :
  let w := {| db := Some ∅; clock := Z.of_nat; ticks := 0;
              faults := fun n => Nat.eqb n 1; accesses := [];
     parse_datetime := fun _ => None |} in
  fst (post_api_chat hello_request w) = Raise StorageError /\
  stored (snd (post_api_chat hello_request w)) "message" =
    [user_doc_of hello_request 0 1].
Proof. split; reflexivity. Qed.

Lemma chat_writes_user_then_assistant_witness :
  exists u a : Doc,
    stored (snd (post_api_chat hello_request fresh_world)) "message" = [u; a] /\
    u !! "role" = Some (VStr (lit "user")) /\
    u !! "content" = Some (VStr (lit "hello")) /\
    a !! "role" = Some (VStr (lit "assistant")) /\
    a !! "content" = Some (VStr (generate_reply (lit "hello"))).
Proof.
  assert (is_ok (fst (post_api_chat hello_request fresh_world)) = true) as H
    by (vm_compute; reflexivity).
  destruct (chat_writes_user_then_assistant _ _ _ _ (run_ok no_response _ H))
    as (u & a & _ & Hs & _ & _ & Hur & Huc & _ & Har & Hac).
  exists u, a. split; [exact Hs|]. split; [exact Hur|]. split; [exact Huc|].
  split; [exact Har|exact Hac].
Defined.

Lemma not_configured_is_500_witness :
  chat hello_request unconfigured_world =
    (Raise (HTTPException 500 (lit "Database not configured")),
     unconfigured_world) /\
  history (lit "s1") unconfigured_world =
    (Raise (HTTPException 500 (lit "Database not configured")),
     unconfigured_world).
Proof.
  destruct (not_configured_is_500 unconfigured_world eq_refl) as (Hc & _ & Hh).
  split; [apply Hc | apply Hh].
Defined.

Lemma empty_message_rejected_witness :
  post_api_chat empty_request fresh_world =
    (Raise RequestValidationError, fresh_world).
Proof. apply (empty_message_rejected empty_request fresh_world). reflexivity. Defined.

Lemma history_at_most_50_witness :
  length (stored (turns 60 hello_request fresh_world) "message") = 120 /\
  length (ChatResponse.messages
            (result_or no_response
               (fst (history (lit "s1") (turns 60 hello_request fresh_world)))))
    <= 50.
Proof.
  split; [vm_compute; reflexivity|].
  assert (is_ok (fst (history (lit "s1") (turns 60 hello_request fresh_world)))
          = true) as H by (vm_compute; reflexivity).
  exact (history_at_most_50 _ _ _ _ (run_ok no_response _ H)).
Defined.

Lemma chat_response_ends_with_turn_witness :
  exists (mu ma : ChatMessage.t) (older : list ChatMessage.t),
    ChatMessage.role mu = lit "user" /\
    ChatMessage.content mu = lit "hello" /\
    ChatMessage.role ma = lit "assistant" /\
    ChatMessage.content ma = generate_reply (lit "hello") /\
    ChatResponse.messages
      (result_or no_response (fst (post_api_chat hello_request legacy_world)))
      = older ++ [mu; ma].
Proof.
  assert (is_ok (fst (post_api_chat hello_request legacy_world)) = true) as H
    by (vm_compute; reflexivity).
  destruct (chat_response_ends_with_turn _ _ _ _ (run_ok no_response _ H))
    as (u & a & mu & ma & older & _ & _ & _ & H1 & H2 & H3 & H4 & H5 & _).
  exists mu, ma, older.
  split; [exact H1|]. split; [exact H2|]. split; [exact H3|].
  split; [exact H4|exact H5].
Defined.


Lemma missing_created_at_defaults_to_now_witness :
  (exists resp w' m,
     history (lit "s1") legacy_world = (Ok resp, w') /\
     ChatResponse.messages resp !! 0 = Some m /\
     ChatMessage.created_at m = 7%Z) /\
  (exists resp w' m,
     post_api_chat hello_request legacy_world = (Ok resp, w') /\
     ChatResponse.messages resp !! 0 = Some m /\
     ChatMessage.created_at m = 11%Z).
Proof.
  pose (old := ({[ "session_id" := VStr (lit "s1");
                   "role" := VStr (lit "user");
                   "content" := VStr (lit "old") ]} : Doc)).
  assert (message_like old) as Hold.
  { split; [by eexists|]. split; [by eexists|]. by left. }
  split.
  - assert (history_window (lit "s1") legacy_world = [old]) as W
      by reflexivity.
    destruct (proj1 missing_created_at_defaults_to_now (lit "s1") legacy_world)
      as (resp & w' & Hrun & Hms).
    + discriminate.
    + intros i Hi. reflexivity.
    + rewrite W. by constructor.
    + destruct (Hms 0 old) as (m & Hm & Ht).
      * by rewrite W.
      * reflexivity.
      * exists resp, w', m. split; [exact Hrun|]. split; [exact Hm|exact Ht].
  - assert (chat_window hello_request legacy_world =
              [old; user_doc_of hello_request 7 8; asst_doc_of hello_request 9 10])
      as W by reflexivity.
    destruct (proj2 missing_created_at_defaults_to_now hello_request legacy_world)
      as (resp & w' & Hrun & Hms).
    + reflexivity.
    + discriminate.
    + intros i Hi. reflexivity.
    + rewrite W. constructor; [done|].
      constructor.
      { split; [by eexists|]. split; [by eexists|]. right. by eexists. }
      constructor; [|constructor].
      split; [by eexists|]. split; [by eexists|]. right. by eexists.
    + destruct (Hms 0 old) as (m & Hm & Ht).
      * by rewrite W.
      * reflexivity.
      * exists resp, w', m. split; [exact Hrun|]. split; [exact Hm|exact Ht].
Defined.

(** * Further properties of the code *)

(** ** Stripping and the reply stub *)

Lemma dropwhile_idem {A} (p : A -> bool) (l : list A) :
  dropwhile p (dropwhile p l) = dropwhile p l.
Proof.
  induction l as [|x l IH]; [done|]. simpl.
  destruct (p x) eqn:E; [done|]. simpl. by rewrite E.
Qed.

Lemma dropwhile_head {A} (p : A -> bool) (l : list A) x r :
  dropwhile p l = x :: r -> p x = false.
Proof.
  induction l as [|y l IH]; [done|]. simpl.
  destruct (p y) eqn:E; [done|]. by intros [= <- _].
Qed.

Lemma dropwhile_nil_inv {A} (p : A -> bool) (l : list A) :
  dropwhile p l = [] -> Forall (fun x => p x = true) l.
Proof.
  induction l as [|y l IH]; [constructor|]. simpl.
  destruct (p y) eqn:E; [|done]. intros H. constructor; auto.
Qed.

Lemma dropwhile_id {A} (p : A -> bool) (x : A) (l : list A) :
  p x = false -> dropwhile p (x :: l) = x :: l.
Proof. intros E. simpl. by rewrite E. Qed.

Lemma dropwhile_snoc {A} (p : A -> bool) (l : list A) (c : A) :
  dropwhile p (l ++ [c]) =
    match dropwhile p l with
    | [] => if p c then [] else [c]
    | _ :: _ => dropwhile p l ++ [c]
    end.
Proof.
  induction l as [|y l IH]; simpl.
  - by destruct (p c).
  - destruct (p y); [done|]. done.
Qed.

Lemma rstrip_cons (c : N) (t : str) :
  rstrip (c :: t) =
    match rstrip t with
    | [] => if isspace c then [] else [c]
    | _ :: _ => c :: rstrip t
    end.
Proof.
  unfold rstrip. rewrite reverse_cons, dropwhile_snoc.
  destruct (dropwhile isspace (reverse t)) as [|y r] eqn:E.
  - rewrite reverse_nil. by destruct (isspace c).
  - rewrite reverse_app, reverse_singleton. simpl.
    destruct (reverse (y :: r)) as [|z q] eqn:E'; [|done].
    apply (f_equal length) in E'. rewrite length_reverse in E'. done.
Qed.

Lemma rstrip_idem (s : str) : rstrip (rstrip s) = rstrip s.
Proof.
  unfold rstrip. by rewrite reverse_involutive, dropwhile_idem.
Qed.

Lemma lstrip_rstrip_lstrip (s : str) :
  lstrip (rstrip (lstrip s)) = rstrip (lstrip s).
Proof.
  unfold lstrip at 2 3.
  destruct (dropwhile isspace s) as [|c t] eqn:E; [done|].
  pose proof (dropwhile_head _ _ _ _ E) as Hc.
  rewrite rstrip_cons. destruct (rstrip t); rewrite ?Hc; unfold lstrip;
    by rewrite dropwhile_id.
Qed.

Lemma strip_idem (s : str) : strip (strip s) = strip s.
Proof.
  unfold strip. by rewrite lstrip_rstrip_lstrip, rstrip_idem.
Qed.

Lemma strip_nil_inv (s : str) :
  strip s = [] -> Forall (fun c => isspace c = true) s.
Proof.
  unfold strip, rstrip. intros H.
  apply (f_equal reverse) in H. rewrite reverse_involutive, reverse_nil in H.
  apply dropwhile_nil_inv in H. rewrite Forall_reverse in H.
  unfold lstrip in H.
  destruct (dropwhile isspace s) as [|c t] eqn:E.
  - by apply dropwhile_nil_inv.
  - apply dropwhile_head in E. apply Forall_cons in H as [H _]. congruence.
Qed.

(** X1: the reply depends on the text only through its stripped form:
    surrounding whitespace never changes it. *)
Theorem generate_reply_ignores_padding (user_text : str) :
  generate_reply (strip user_text) = generate_reply user_text.
Proof. unfold generate_reply. by rewrite strip_idem. Qed.

(** X2: the fallback string is returned exactly for the empty and the
    all-whitespace texts. *)
Theorem generate_reply_fallback_iff_blank (user_text : str) :
  generate_reply user_text = fallback_reply <->
  Forall (fun c => isspace c = true) user_text.
Proof.
  split; [|intros H; unfold generate_reply; by rewrite strip_all_space].
  intros H. apply strip_nil_inv.
  destruct (strip user_text) as [|c t] eqn:E; [done|].
  unfold generate_reply in H. rewrite E in H. cbn [truthy negb] in H.
  apply (f_equal head) in H. discriminate H.
Qed.

(** X3: the reply has 53 characters for a blank text and otherwise 179 plus
    the length of the stripped text capped at 120, hence never more than 299. *)
Theorem generate_reply_length (user_text : str) :
  length (generate_reply user_text) <= 299 /\
  (strip user_text = [] -> length (generate_reply user_text) = 53) /\
  (strip user_text <> [] ->
   length (generate_reply user_text) =
     179 + 120 `min` length (strip user_text)).
Proof.
  assert (forall h : str,
            length (reply_header ++ echo_line h ++ reply_closing) =
              179 + length h) as Hl.
  { intros h. unfold echo_line. rewrite !length_app.
    change (length reply_header) with 21.
    change (length reply_closing) with 144.
    change (length (lit "You said: ")) with 10. cbn [length]. lia. }
  unfold generate_reply.
  destruct (strip user_text) as [|c t] eqn:E; cbn [truthy negb].
  - split; [vm_compute; lia|]. split; [done|]. by intros [].
  - destruct (120 <? length (c :: t)) eqn:L.
    + apply Nat.ltb_lt in L. rewrite Hl, length_app, length_take.
      change (length (lit "...")) with 3.
      split; [lia|]. split; [done|]. intros _. lia.
    + apply Nat.ltb_ge in L. rewrite Hl.
      split; [lia|]. split; [done|]. intros _. lia.
Qed.

(** X4: two texts whose stripped forms are non-empty and at most 120
    characters long get the same reply only if their stripped forms agree. *)
Theorem generate_reply_separates_short_texts (s1 s2 : str) :
  strip s1 <> [] -> length (strip s1) <= 120 ->
  strip s2 <> [] -> length (strip s2) <= 120 ->
  generate_reply s1 = generate_reply s2 -> strip s1 = strip s2.
Proof.
  intros N1 L1 N2 L2.
  rewrite (generate_reply_short s1), (generate_reply_short s2) by done.
  intros H. apply app_inv_head in H. apply app_inv_tail in H.
  unfold echo_line in H. apply app_inv_head in H. apply app_inv_head in H.
  by apply app_inv_tail in H.
Qed.

(** ** Failures, sizes and sessions *)

Lemma length_last_n_min {A} (n : nat) (l : list A) :
  length (last_n n l) = n `min` length l.
Proof. unfold last_n. rewrite length_drop. lia. Qed.

Lemma mapM_to_message_frame docs : forall w,
  db (snd (mapM to_message docs w)) = db w /\
  accesses (snd (mapM to_message docs w)) = accesses w /\
  faults (snd (mapM to_message docs w)) = faults w /\
  clock (snd (mapM to_message docs w)) = clock w /\
  (forall e, fst (mapM to_message docs w) = Raise e -> e = ValidationError).
Proof.
  induction docs as [|d docs IH]; intros w.
  - cbn. repeat split; done.
  - cbn [mapM]. rewrite bind_run, to_message_run.
    destruct (message_of (parse_datetime w) d (clock w (ticks w))) as [m|].
    + rewrite bind_run. destruct (IH (snd (now w))) as (H1 & H2 & H3 & H4 & H5).
      destruct (mapM to_message docs (snd (now w))) as [[ms|e] w''].
      * cbn in *. repeat split; done.
      * cbn in *. repeat split; try done; intros e' [= <-]; by apply H5.
    + cbn. repeat split; try done; by intros e [= <-].
Qed.

Lemma mapM_to_message_fails docs : forall w i d,
  docs !! i = Some d -> message_of (parse_datetime w) d (clock w (i + ticks w)) = None ->
  fst (mapM to_message docs w) = Raise ValidationError.
Proof.
  intros w i d Hi Hnone.
  destruct (mapM to_message docs w) as [[ms|e] w'] eqn:E.
  - apply mapM_to_message_ok in E as (_ & _ & Hall).
    destruct (Hall i d Hi) as (m & _ & Hm). congruence.
  - cbn. f_equal.
    destruct (mapM_to_message_frame docs w) as (_ & _ & _ & _ & H).
    apply H. by rewrite E.
Qed.

Lemma user_doc_like req t1 t2 : message_like (user_doc_of req t1 t2).
Proof.
  destruct (user_doc_fields req t1 t2) as (_ & Hr & Hc & Ht).
  split; [by eexists|]. split; [by eexists|]. right. by eexists.
Qed.

Lemma asst_doc_like req t3 t4 : message_like (asst_doc_of req t3 t4).
Proof.
  destruct (asst_doc_fields req t3 t4) as (_ & Hr & Hc & Ht).
  split; [by eexists|]. split; [by eexists|]. right. by eexists.
Qed.

Lemma Forall_filter_list {A} (P Q : A -> Prop) `{forall x, Decision (Q x)}
    (l : list A) :
  Forall P l -> Forall P (filter Q l).
Proof.
  rewrite !Forall_forall. intros H' x Hx.
  apply list_elem_of_filter in Hx as [_ Hx]. by apply H'.
Qed.

Lemma session_docs_after_writes req w :
  db w <> None ->
  session_docs (ChatRequest.session_id req) (after_writes req w) =
    session_docs (ChatRequest.session_id req) w ++
      [user_doc_of req (clock w (ticks w)) (clock w (1 + ticks w));
       asst_doc_of req (clock w (2 + ticks w)) (clock w (3 + ticks w))].
Proof.
  intros Hdb. unfold session_docs. rewrite stored_after_writes by done.
  rewrite filter_app.
  rewrite (filter_cons_True _ (user_doc_of _ _ _)); cycle 1.
  { apply matches_session_filter, user_doc_fields. }
  rewrite (filter_cons_True _ (asst_doc_of _ _ _)); cycle 1.
  { apply matches_session_filter, asst_doc_fields. }
  by rewrite filter_nil.
Qed.

Lemma session_docs_after_writes_other req w session_id :
  session_id <> ChatRequest.session_id req ->
  session_docs session_id (after_writes req w) = session_docs session_id w.
Proof.
  intros Hne. unfold session_docs.
  destruct (db w) as [store|] eqn:Edb; cycle 1.
  { unfold stored, after_writes. cbn [db]. by rewrite Edb. }
  rewrite stored_after_writes by congruence.
  rewrite filter_app.
  rewrite (filter_cons_False _ (user_doc_of _ _ _)); cycle 1.
  { rewrite matches_session_filter.
    destruct (user_doc_fields req (clock w (ticks w)) (clock w (1 + ticks w)))
      as (-> & _). congruence. }
  rewrite (filter_cons_False _ (asst_doc_of _ _ _)); cycle 1.
  { rewrite matches_session_filter.
    destruct (asst_doc_fields req (clock w (2 + ticks w)) (clock w (3 + ticks w)))
      as (-> & _). congruence. }
  by rewrite filter_nil, app_nil_r.
Qed.

Lemma post_api_chat_world req w resp w' :
  post_api_chat req w = (Ok resp, w') ->
  db w <> None /\
  w' = advance (length (chat_window req w)) (after_writes req w).
Proof.
  intros H. destruct (post_api_chat_ok _ _ _ _ H) as (_ & Hdb & _ & _ & Hm).
  by apply mapM_to_message_ok in Hm as (-> & _ & _).
Qed.

Lemma doc_model_fields req t1 t2 t3 t4 :
  user_doc_of req t1 t2 !! "model" = Some (VStr (model_or_stub (ChatRequest.model req))) /\
  asst_doc_of req t3 t4 !! "model" = Some (VStr (model_or_stub (ChatRequest.model req))) /\
  user_doc_of req t1 t2 !! "updated_at" = Some (VTime t2) /\
  asst_doc_of req t3 t4 !! "updated_at" = Some (VTime t4).
Proof. unfold user_doc_of, asst_doc_of. repeat split; by simplify_map_eq. Qed.

(** X5: both documents of a turn carry the same model name: the request's
    model when it is a non-empty string, "tanim-stub" when it is omitted or empty. *)
Theorem chat_model_defaults_to_stub req w resp w' :
  post_api_chat req w = (Ok resp, w') ->
  exists u a : Doc,
    stored w' "message" = stored w "message" ++ [u; a] /\
    u !! "model" = a !! "model" /\
    u !! "model" =
      Some (VStr (match ChatRequest.model req with
                  | Some (c :: m) => c :: m
                  | Some [] | None => lit "tanim-stub"
                  end)).
Proof.
  intros H. destruct (post_api_chat_world _ _ _ _ H) as (Hdb & ->).
  eexists (user_doc_of req _ _), (asst_doc_of req _ _).
  split; [by apply stored_after_writes|].
  destruct (doc_model_fields req (clock w (ticks w)) (clock w (1 + ticks w))
              (clock w (2 + ticks w)) (clock w (3 + ticks w)))
    as (-> & -> & _). split; [done|].
  unfold model_or_stub. by destruct (ChatRequest.model req) as [[|c m]|].
Qed.

(** X6: each of the four timestamps of a turn is a clock reading of its own,
    taken in the order user created, user updated, assistant created,
    assistant updated; with a clock that never runs backwards they are in
    that order. *)
Theorem chat_timestamps_in_order req w resp w' :
  post_api_chat req w = (Ok resp, w') ->
  (forall i j, i <= j -> (clock w i <= clock w j)%Z) ->
  exists (u a : Doc) (tu1 tu2 ta1 ta2 : Z),
    stored w' "message" = stored w "message" ++ [u; a] /\
    u !! "created_at" = Some (VTime tu1) /\
    u !! "updated_at" = Some (VTime tu2) /\
    a !! "created_at" = Some (VTime ta1) /\
    a !! "updated_at" = Some (VTime ta2) /\
    (clock w (ticks w) <= tu1 <= tu2)%Z /\ (tu2 <= ta1 <= ta2)%Z.
Proof.
  intros H Hmono. destruct (post_api_chat_world _ _ _ _ H) as (Hdb & ->).
  eexists (user_doc_of req _ _), (asst_doc_of req _ _), _, _, _, _.
  split; [by apply stored_after_writes|].
  destruct (doc_model_fields req (clock w (ticks w)) (clock w (1 + ticks w))
              (clock w (2 + ticks w)) (clock w (3 + ticks w)))
    as (_ & _ & Hu & Ha).
  destruct (user_doc_fields req (clock w (ticks w)) (clock w (1 + ticks w)))
    as (_ & _ & _ & Hu').
  destruct (asst_doc_fields req (clock w (2 + ticks w)) (clock w (3 + ticks w)))
    as (_ & _ & _ & Ha').
  do 4 (split; [eassumption|]).
  pose proof (Hmono (ticks w) (1 + ticks w) ltac:(lia)).
  pose proof (Hmono (1 + ticks w) (2 + ticks w) ltac:(lia)).
  pose proof (Hmono (2 + ticks w) (3 + ticks w) ltac:(lia)).
  lia.
Qed.

Ltac run_chat_goal :=
  cbv beta iota zeta delta
    [chat mbind M_bind db_is_None now create_document get_documents logged
     db clock ticks faults accesses raise post_api_chat].

(** X7: when the store takes the user document and fails the assistant
    write, the call raises the storage error and the user document stays
    stored: nothing is rolled back. *)
Theorem chat_assistant_write_fails_keeps_user req w :
  ChatRequest.validate req = true ->
  db w <> None ->
  faults w (length (accesses w)) = false ->
  faults w (S (length (accesses w))) = true ->
  exists w',
    post_api_chat req w = (Raise StorageError, w') /\
    stored w' "message" =
      stored w "message" ++
        [user_doc_of req (clock w (ticks w)) (clock w (1 + ticks w))] /\
    accesses w' =
      accesses w ++
        [Create "message"
           (user_doc_of req (clock w (ticks w)) (clock w (1 + ticks w)));
         Create "message"
           (asst_doc_of req (clock w (2 + ticks w)) (clock w (3 + ticks w)))].
Proof.
  intros Hv Hdb F0 F1. destruct w as [[store|] ck tk fl acc pd]; [|done].
  cbn [faults accesses] in F0, F1. unfold post_api_chat. rewrite Hv.
  run_chat_goal. rewrite F0, length_app, Nat.add_1_r, F1.
  eexists. split; [reflexivity|]. unfold stored. cbn [db accesses clock ticks].
  rewrite lookup_insert_eq. split; [done|]. by rewrite <- app_assoc.
Qed.

(** X8: when the store fails the user write, the call raises the storage
    error, the store is unchanged and the assistant write is not attempted. *)
Theorem chat_user_write_fails_writes_nothing req w :
  ChatRequest.validate req = true ->
  db w <> None ->
  faults w (length (accesses w)) = true ->
  exists w',
    post_api_chat req w = (Raise StorageError, w') /\
    db w' = db w /\
    accesses w' =
      accesses w ++
        [Create "message"
           (user_doc_of req (clock w (ticks w)) (clock w (1 + ticks w)))].
Proof.
  intros Hv Hdb F0. destruct w as [[store|] ck tk fl acc pd]; [|done].
  cbn [faults accesses] in F0. unfold post_api_chat. rewrite Hv.
  run_chat_goal. rewrite F0.
  eexists. split; [reflexivity|]. by split.
Qed.

(** X9: when a document of the window cannot be turned into a message (its
    role or content is not a string, or its [created_at] is [None] or a
    string the parser rejects), the call raises the validation error
    although both documents of the turn have been stored. *)
Theorem chat_fails_after_writing req w i d :
  ChatRequest.validate req = true ->
  db w <> None -> no_faults w 3 ->
  chat_window req w !! i = Some d ->
  message_of (parse_datetime w) d (clock w (i + (4 + ticks w))) = None ->
  exists w',
    post_api_chat req w = (Raise ValidationError, w') /\
    stored w' "message" =
      stored w "message" ++
        [user_doc_of req (clock w (ticks w)) (clock w (1 + ticks w));
         asst_doc_of req (clock w (2 + ticks w)) (clock w (3 + ticks w))].
Proof.
  intros Hv Hdb Hf Hi Hnone. unfold post_api_chat. rewrite Hv.
  rewrite chat_run, bind_run by done.
  pose proof (mapM_to_message_fails _ (after_writes req w) i d Hi Hnone) as E.
  destruct (mapM_to_message_frame (chat_window req w) (after_writes req w))
    as (Hd & _).
  destruct (mapM to_message (chat_window req w) (after_writes req w))
    as [r w''] eqn:Erun.
  cbn in E, Hd. subst r. exists w''. split; [done|].
  rewrite <- stored_after_writes by done. unfold stored. by rewrite Hd.
Qed.

(** X10: the history handler never changes the store, whatever its outcome;
    on success it made one read and one clock reading per message. *)
Theorem history_is_read_only session_id w :
  db (snd (history session_id w)) = db w /\
  forall resp w',
    history session_id w = (Ok resp, w') ->
    accesses w' =
      accesses w ++ [Find "message" (session_filter session_id) 50] /\
    ticks w' = length (ChatResponse.messages resp) + ticks w.
Proof.
  split.
  - destruct w as [[store|] ck tk fl acc pd]; [|done].
    unfold history. rewrite bind_run. cbn [db_is_None db].
    rewrite (bind_run (get_documents _ _ _)).
    unfold get_documents. cbn [db faults accesses].
    destruct (fl (length acc)); [done|]. rewrite bind_run.
    match goal with |- context [mapM to_message ?l ?w0] =>
      destruct (mapM_to_message_frame l w0) as (Hd & _);
      destruct (mapM to_message l w0) as [[ms|e] w''] end; exact Hd.
  - intros resp w' H. destruct (history_ok_inv _ _ _ _ H) as [Hdb Hf].
    rewrite history_run, bind_run in H by done.
    destruct (mapM to_message _ _) as [[ms|e] w''] eqn:E; [|done].
    injection H as <- <-. cbn [ChatResponse.messages].
    apply mapM_to_message_ok in E as (-> & -> & _). by split.
Qed.

(** X11: a session without stored documents gets its id back with an empty
    message list, after one read. *)
Theorem history_of_unknown_session session_id w :
  db w <> None -> no_faults w 1 ->
  session_docs session_id w = [] ->
  history session_id w =
    (Ok {| ChatResponse.session_id := session_id;
           ChatResponse.messages := [] |},
     logged (Find "message" (session_filter session_id) 50) w).
Proof.
  intros Hdb Hf He. rewrite history_run by done.
  unfold history_window. fold (session_docs session_id w). by rewrite He.
Qed.

(** X12: a successful history returns the session's documents up to 50, a
    successful chat call the session's earlier documents plus two, up to 50. *)
Theorem response_sizes :
  (forall session_id w resp w',
     history session_id w = (Ok resp, w') ->
     length (ChatResponse.messages resp) =
       50 `min` length (session_docs session_id w)) /\
  (forall req w resp w',
     post_api_chat req w = (Ok resp, w') ->
     length (ChatResponse.messages resp) =
       50 `min` (2 + length (session_docs (ChatRequest.session_id req) w))).
Proof.
  split.
  - intros sid w resp w' H. destruct (history_ok_inv _ _ _ _ H) as [Hdb Hf].
    rewrite history_run, bind_run in H by done.
    destruct (mapM to_message _ _) as [[ms|e] w''] eqn:E; [|done].
    injection H as <- <-. cbn [ChatResponse.messages].
    apply mapM_to_message_ok in E as (_ & -> & _). apply length_last_n_min.
  - intros req w resp w' H.
    destruct (post_api_chat_ok _ _ _ _ H) as (_ & Hdb & _ & _ & Hm).
    apply mapM_to_message_ok in Hm as (_ & -> & _).
    unfold chat_window. fold (session_docs (ChatRequest.session_id req) (after_writes req w)).
    rewrite length_last_n_min, session_docs_after_writes, length_app by done.
    cbn [length]. lia.
Qed.

(** X13: a chat turn leaves the documents and the history window of every
    other session as they were. *)
Theorem chat_leaves_other_sessions req w resp w' session_id :
  post_api_chat req w = (Ok resp, w') ->
  session_id <> ChatRequest.session_id req ->
  session_docs session_id w' = session_docs session_id w /\
  history_window session_id w' = history_window session_id w.
Proof.
  intros H Hne. destruct (post_api_chat_world _ _ _ _ H) as (Hdb & ->).
  assert (session_docs session_id
            (advance (length (chat_window req w)) (after_writes req w)) =
          session_docs session_id w) as E
    by (by apply (session_docs_after_writes_other req w)).
  split; [exact E|]. unfold history_window.
  fold (session_docs session_id w).
  fold (session_docs session_id
          (advance (length (chat_window req w)) (after_writes req w))).
  by rewrite E.
Qed.

Lemma message_of_dated parse parse' d t t' :
  dated d -> message_of parse d t = message_of parse' d t'.
Proof. intros [ts E]. unfold message_of, get_or. by rewrite E. Qed.

Lemma mapM_to_message_dated docs w1 w2 ms w1' :
  Forall dated docs ->
  mapM to_message docs w1 = (Ok ms, w1') ->
  mapM to_message docs w2 = (Ok ms, advance (length docs) w2).
Proof.
  intros Hd H1.
  apply mapM_to_message_ok in H1 as (_ & Hlen1 & Hall1).
  destruct (mapM_to_message_run docs w2) as [ms2 E2].
  { intros i d Hi. destruct (Hall1 i d Hi) as (m & _ & Hm).
    rewrite Forall_lookup in Hd.
    rewrite (message_of_dated _ (parse_datetime w1) d _ (clock w1 (i + ticks w1))) by eauto.
    by rewrite Hm. }
  rewrite E2. do 2 f_equal.
  apply mapM_to_message_ok in E2 as (_ & Hlen2 & Hall2).
  apply list_eq. intros i.
  destruct (docs !! i) as [d|] eqn:Hi.
  - destruct (Hall1 i d Hi) as (m1 & -> & Hm1).
    destruct (Hall2 i d Hi) as (m2 & -> & Hm2).
    rewrite Forall_lookup in Hd.
    rewrite (message_of_dated _ (parse_datetime w1) d _ (clock w1 (i + ticks w1))) in Hm2 by eauto.
    congruence.
  - apply lookup_ge_None in Hi.
    rewrite (proj2 (lookup_ge_None ms i)) by lia.
    by rewrite (proj2 (lookup_ge_None ms2 i)) by lia.
Qed.

Lemma user_doc_dated req t1 t2 : dated (user_doc_of req t1 t2).
Proof. destruct (user_doc_fields req t1 t2) as (_ & _ & _ & Ht). by eexists. Qed.

Lemma asst_doc_dated req t3 t4 : dated (asst_doc_of req t3 t4).
Proof. destruct (asst_doc_fields req t3 t4) as (_ & _ & _ & Ht). by eexists. Qed.

Lemma Forall_chat_window (P : Doc -> Prop) req w :
  db w <> None ->
  Forall P (session_docs (ChatRequest.session_id req) w) ->
  P (user_doc_of req (clock w (ticks w)) (clock w (1 + ticks w))) ->
  P (asst_doc_of req (clock w (2 + ticks w)) (clock w (3 + ticks w))) ->
  Forall P (chat_window req w).
Proof.
  intros Hdb Hall Hu Ha. unfold chat_window, last_n. apply Forall_drop.
  fold (session_docs (ChatRequest.session_id req) (after_writes req w)).
  rewrite session_docs_after_writes by done.
  apply Forall_app. split; [done|]. by repeat constructor.
Qed.

(** X14: when every earlier document of the session has a datetime
    [created_at], a history call made right after a successful chat turn
    returns that turn's response. *)
Theorem history_after_chat_agrees req w resp w' :
  post_api_chat req w = (Ok resp, w') ->
  faults w' (length (accesses w')) = false ->
  Forall dated (session_docs (ChatRequest.session_id req) w) ->
  exists w'', history (ChatRequest.session_id req) w' = (Ok resp, w'').
Proof.
  intros H Hf Hd.
  destruct (post_api_chat_ok _ _ _ _ H) as (_ & Hdb & _ & Hsid & Hm).
  pose proof (mapM_to_message_ok _ _ _ _ Hm) as (Hw & _ & _).
  assert (history_window (ChatRequest.session_id req) w' = chat_window req w)
    as Hwin by (by rewrite Hw).
  assert (Forall dated (chat_window req w)) as Hdw.
  { apply Forall_chat_window; auto using user_doc_dated, asst_doc_dated. }
  eexists. rewrite history_run, bind_run, Hwin.
  - erewrite (mapM_to_message_dated _ (after_writes req w)); [|done|exact Hm].
    destruct resp as [sid ms]. cbn in Hsid. subst sid. reflexivity.
  - rewrite Hw. cbn [db advance after_writes]. by destruct (db w).
  - intros [|i] Hi; [exact Hf|lia].
Qed.

(** X15: a non-empty message of whitespace only passes the request model,
    and the assistant message of the turn is the fixed fallback string. *)
Theorem blank_message_gets_fallback req :
  ChatRequest.message req <> [] ->
  Forall (fun c => isspace c = true) (ChatRequest.message req) ->
  ChatRequest.validate req = true /\
  forall w resp w',
    post_api_chat req w = (Ok resp, w') ->
    exists older,
      ChatResponse.messages resp =
        older ++
          [{| ChatMessage.role := lit "user";
              ChatMessage.content := ChatRequest.message req;
              ChatMessage.created_at := clock w (ticks w) |};
           {| ChatMessage.role := lit "assistant";
              ChatMessage.content := fallback_reply;
              ChatMessage.created_at := clock w (2 + ticks w) |}].
Proof.
  intros Hne Hsp. split.
  - unfold ChatRequest.validate. by destruct (ChatRequest.message req).
  - intros w resp w' H.
    destruct (chat_messages_split _ _ _ _ H) as (older & E & _).
    exists older. rewrite E. do 4 f_equal.
    unfold generate_reply. by rewrite strip_all_space.
Qed.

Lemma chat_healthy_run req w :
  healthy w -> ChatRequest.validate req = true ->
  exists resp,
    post_api_chat req w =
      (Ok resp, advance (length (chat_window req w)) (after_writes req w)) /\
    healthy (advance (length (chat_window req w)) (after_writes req w)).
Proof.
  intros (Hdb & Hf & Hall) Hv.
  assert (Forall message_like (chat_window req w)) as Hw.
  { apply Forall_chat_window; auto using user_doc_like, asst_doc_like.
    by apply Forall_filter_list. }
  destruct (mapM_to_message_like _ (after_writes req w) Hw) as (ms & E & _).
  eexists. unfold post_api_chat. rewrite Hv.
  rewrite chat_run, bind_run, E; [|done|by intros i _].
  split; [reflexivity|]. split; [|split].
  - cbn [db advance after_writes]. by destruct (db w).
  - exact Hf.
  - change (stored (advance (length (chat_window req w)) (after_writes req w))
              "message") with (stored (after_writes req w) "message").
    rewrite stored_after_writes by done. apply Forall_app. split; [done|].
    apply Forall_cons. split; [apply user_doc_like|].
    apply Forall_cons. split; [apply asst_doc_like|constructor].
Qed.

Lemma history_healthy_run session_id w :
  healthy w ->
  exists resp w',
    history session_id w = (Ok resp, w') /\
    length (ChatResponse.messages resp) =
      50 `min` length (session_docs session_id w).
Proof.
  intros (Hdb & Hf & Hall).
  assert (Forall message_like (history_window session_id w)) as Hw.
  { unfold history_window, last_n. apply Forall_drop.
    by apply Forall_filter_list. }
  destruct (mapM_to_message_like _
              (logged (Find "message" (session_filter session_id) 50) w) Hw)
    as (ms & E & _).
  eexists _, _. rewrite history_run, bind_run, E; [|done|by intros i _].
  split; [reflexivity|]. cbn [ChatResponse.messages].
  apply mapM_to_message_ok in E as (_ & -> & _). apply length_last_n_min.
Qed.

Lemma turns_healthy req w n :
  healthy w -> ChatRequest.validate req = true ->
  healthy (turns n req w) /\
  length (stored (turns n req w) "message") =
    length (stored w "message") + 2 * n /\
  length (session_docs (ChatRequest.session_id req) (turns n req w)) =
    length (session_docs (ChatRequest.session_id req) w) + 2 * n.
Proof.
  intros Hw Hv. induction n as [|n (IH & IHs & IHd)].
  - cbn. split; [done|]. split; lia.
  - change (turns (S n) req w) with (snd (post_api_chat req (turns n req w))).
    destruct (chat_healthy_run req (turns n req w) IH Hv) as (resp & -> & Hh).
    cbn [snd]. split; [done|].
    destruct IH as (Hdb & _).
    change (stored (advance ?k ?x) "message") with (stored x "message").
    change (session_docs ?s (advance ?k ?x)) with (session_docs s x).
    rewrite stored_after_writes, session_docs_after_writes by done.
    rewrite !length_app, IHs, IHd. cbn [length]. split; lia.
Qed.

(** X16: on a store that answers and holds only documents the response model
    accepts, a valid chat turn succeeds and leaves such a store. *)
Theorem chat_keeps_store_healthy req w :
  healthy w -> ChatRequest.validate req = true ->
  exists resp w', post_api_chat req w = (Ok resp, w') /\ healthy w'.
Proof.
  intros Hw Hv. destruct (chat_healthy_run req w Hw Hv) as (resp & E & Hh).
  by eexists _, _.
Qed.

(** X17: after n valid chat turns on such a store the collection holds 2n
    more documents, and history returns the session's documents up to 50. *)
Theorem history_after_turns req w n :
  healthy w -> ChatRequest.validate req = true ->
  length (stored (turns n req w) "message") =
    length (stored w "message") + 2 * n /\
  exists resp w',
    history (ChatRequest.session_id req) (turns n req w) = (Ok resp, w') /\
    length (ChatResponse.messages resp) =
      50 `min` (length (session_docs (ChatRequest.session_id req) w) + 2 * n).
Proof.
  intros Hw Hv. destruct (turns_healthy req w n Hw Hv) as (Hh & Hs & Hd).
  split; [done|].
  destruct (history_healthy_run (ChatRequest.session_id req) _ Hh)
    as (resp & w' & E & Hlen).
  exists resp, w'. split; [done|]. by rewrite Hlen, Hd.
Qed.

Lemma message_of_inv parse d t m :
  message_of parse d t = Some m ->
  d !! "role" = Some (VStr (ChatMessage.role m)) /\
  d !! "content" = Some (VStr (ChatMessage.content m)) /\
  (forall ts, d !! "created_at" = Some (VTime ts) -> ChatMessage.created_at m = ts).
Proof.
  unfold message_of, get, get_or.
  destruct (d !! "role") as [[r| |]|]; cbn [default from_option id]; try done.
  destruct (d !! "content") as [[c| |]|]; cbn [default from_option id]; try done.
  destruct (d !! "created_at") as [[s| ts |]|];
    cbn [default from_option id ChatMessage.as_datetime];
    try destruct (parse s); try done; intros [= <-]; cbn;
    repeat split; try done; by intros ? [= <-].
Qed.

(** X18: the messages of a successful history are, in order, the documents
    of the window: each document belongs to the session and its role,
    content and stored [created_at] are those of the message. *)
Theorem history_messages_mirror_documents session_id w resp w' :
  history session_id w = (Ok resp, w') ->
  ChatResponse.session_id resp = session_id /\
  length (ChatResponse.messages resp) = length (history_window session_id w) /\
  forall i d m,
    history_window session_id w !! i = Some d ->
    ChatResponse.messages resp !! i = Some m ->
    d !! "session_id" = Some (VStr session_id) /\
    d !! "role" = Some (VStr (ChatMessage.role m)) /\
    d !! "content" = Some (VStr (ChatMessage.content m)) /\
    (forall ts, d !! "created_at" = Some (VTime ts) ->
                ChatMessage.created_at m = ts).
Proof.
  intros H. destruct (history_ok_inv _ _ _ _ H) as [Hdb Hf].
  rewrite history_run, bind_run in H by done.
  destruct (mapM to_message _ _) as [[ms|e] w''] eqn:E; [|done].
  injection H as <- <-. cbn [ChatResponse.messages ChatResponse.session_id].
  apply mapM_to_message_ok in E as (_ & Hlen & Hall).
  split; [done|]. split; [done|]. intros i d m Hi Hm.
  destruct (Hall i d Hi) as (m' & Hm' & Hof).
  rewrite Hm in Hm'. injection Hm' as <-.
  split; [|by apply (message_of_inv _ d _ m Hof)].
  apply matches_session_filter.
  assert (d ∈ history_window session_id w) as Hin
    by (apply list_elem_of_lookup; eauto).
  unfold history_window, last_n in Hin.
  apply subseteq_drop in Hin. by apply list_elem_of_filter in Hin as [? _].
Qed.

(** ** The diagnostic endpoint *)

Ltac diag_cases db :=
  unfold test_database;
  destruct db as [[[|v|e] [cs|e']]|]; cbn [Database.name Database.list_collection_names].

Ltac lit_lengths :=
  unfold check_mark, cross_mark, warning_sign;
  rewrite ?length_app, ?length_take;
  repeat match goal with
         | |- context [length (lit ?s)] =>
             let n := eval vm_compute in (length (lit s)) in
             change (length (lit s)) with n
         end;
  cbn [length]; lia.

(** X19: [database_url] and [database_name] of the diagnostic payload report
    only whether the two environment variables are set; what the handle
    answered is overwritten. *)
Theorem test_database_env_fields db getenv :
  test_database db getenv !! "database_url" =
    Some (JStr (if env_set getenv "DATABASE_URL"
                then check_mark ++ lit " Set"
                else cross_mark ++ lit " Not Set")) /\
  test_database db getenv !! "database_name" =
    Some (JStr (if env_set getenv "DATABASE_NAME"
                then check_mark ++ lit " Set"
                else cross_mark ++ lit " Not Set")).
Proof.
  unfold test_database. cbv zeta. split.
  - by rewrite lookup_insert_ne, lookup_insert_eq.
  - by rewrite lookup_insert_eq.
Qed.

(** X20: [collections] holds the first ten names the handle lists, and is
    empty without a handle or when reading it raises. *)
Theorem test_database_collections db getenv :
  exists cs,
    test_database db getenv !! "collections" = Some (JList cs) /\
    length cs <= 10 /\
    cs = match introspected db with
         | Some collections => take 10 collections
         | None => []
         end.
Proof.
  diag_cases db; eexists; (split; [by simplify_map_eq|]);
    cbn [introspected Database.name Database.list_collection_names];
    (split; [|reflexivity]); rewrite ?length_take; cbn [length]; lia.
Qed.

(** X21: the [database] status is never the initial "Not Available" text, it
    has at most 75 characters whatever the exception text, and it reads
    "Connected & Working" exactly when the names could be listed. *)
Theorem test_database_status db getenv :
  exists status,
    test_database db getenv !! "database" = Some (JStr status) /\
    status <> cross_mark ++ lit " Not Available" /\
    length status <= 75 /\
    (status = check_mark ++ lit " Connected & Working" <->
     is_Some (introspected db)).
Proof.
  diag_cases db; eexists;
    (split; [rewrite !lookup_insert_ne by done; rewrite lookup_insert_eq;
             reflexivity|]);
    cbn [introspected Database.name Database.list_collection_names];
    (split; [by intros [=]|]);
    (split; [lit_lengths|]);
    (split; [intros H; try (by discriminate H); by eexists
            |intros [? H]; try (by discriminate H); reflexivity]).
Qed.

Lemma connection_status_lookup db getenv :
  test_database db getenv !! "connection_status" =
    Some (JStr (match db with
                | Some d =>
                    match Database.name d with
                    | AttrRaises _ => lit "Not Connected"
                    | _ => lit "Connected"
                    end
                | None => lit "Not Connected"
                end)).
Proof. diag_cases db; by simplify_map_eq. Qed.

(** X22: [backend] is always the running mark; [connection_status] is
    "Connected" exactly when there is a handle whose name can be read, and
    "Not Connected" otherwise. *)
Theorem test_database_connection_status db getenv :
  test_database db getenv !! "backend" =
    Some (JStr (check_mark ++ lit " Running")) /\
  (test_database db getenv !! "connection_status" =
     Some (JStr (lit "Connected")) \/
   test_database db getenv !! "connection_status" =
     Some (JStr (lit "Not Connected"))) /\
  (test_database db getenv !! "connection_status" =
     Some (JStr (lit "Connected")) <->
   exists d, db = Some d /\ forall e, Database.name d <> AttrRaises e).
Proof.
  split; [diag_cases db; by simplify_map_eq|].
  rewrite connection_status_lookup.
  destruct db as [[[|v|e] l]|]; cbn [Database.name].
  - split; [by left|]. split; [|done]. intros _. by eexists.
  - split; [by left|]. split; [|done]. intros _. by eexists.
  - split; [by right|]. split; [by intros [=]|].
    intros (d & [= <-] & Hn). by destruct (Hn e).
  - split; [by right|]. split; [by intros [=]|]. by intros (d & [=] & _).
Qed.

(** X23: the diagnostic payload always has the same six keys. *)
Theorem test_database_keys db getenv :
  dom (test_database db getenv) =
    ({[ "backend"; "database"; "database_url"; "database_name";
        "connection_status"; "collections" ]} : gset string).
Proof.
  diag_cases db; rewrite !dom_insert_L, dom_singleton_L; set_solver.
Qed.

(** ** The further scenarios, run *)

Lemma fresh_world_healthy : healthy fresh_world.
Proof.
  split; [discriminate|]. split; [reflexivity|]. apply Forall_nil_2.
Qed.

Lemma generate_reply_fallback_iff_blank_witness :
  Forall (fun c => isspace c = true) (lit "   ").
Proof.
  apply (proj1 (generate_reply_fallback_iff_blank (lit "   "))). reflexivity.
Defined.

Lemma generate_reply_length_witness :
  length (generate_reply (lit "  ")) = 53 /\
  length (generate_reply (replicate 500 97%N)) = 299.
Proof.
  split.
  - apply (generate_reply_length (lit "  ")). reflexivity.
  - apply (generate_reply_length (replicate 500 97%N)). vm_compute. discriminate.
Defined.

Lemma generate_reply_separates_short_texts_witness :
  strip (lit " a") = strip (lit "a  ").
Proof.
  apply (generate_reply_separates_short_texts (lit " a") (lit "a  "));
    try (vm_compute; first [discriminate | lia]). reflexivity.
Defined.

Lemma chat_ok_hello : is_ok (fst (post_api_chat hello_request fresh_world)) = true.
Proof. vm_compute. reflexivity. Qed.
Lemma chat_ok_other : is_ok (fst (post_api_chat other_request legacy_world)) = true.
Proof. vm_compute. reflexivity. Qed.
Lemma chat_ok_blank : is_ok (fst (post_api_chat blank_request fresh_world)) = true.
Proof. vm_compute. reflexivity. Qed.
Lemma history_ok_legacy : is_ok (fst (history (lit "s1") legacy_world)) = true.
Proof. vm_compute. reflexivity. Qed.

Lemma chat_model_defaults_to_stub_witness :
  (exists u a : Doc,
     stored (snd (post_api_chat other_request legacy_world)) "message" =
       stored legacy_world "message" ++ [u; a] /\
     u !! "model" = Some (VStr (lit "tanim-2"))) /\
  (exists u a : Doc,
     stored (snd (post_api_chat blank_request fresh_world)) "message" = [u; a] /\
     u !! "model" = Some (VStr (lit "tanim-stub"))).
Proof.
  split.
  - destruct (chat_model_defaults_to_stub _ _ _ _
                (run_ok no_response _ chat_ok_other)) as (u & a & Hs & _ & Hm).
    exists u, a. split; [exact Hs|exact Hm].
  - destruct (chat_model_defaults_to_stub _ _ _ _
                (run_ok no_response _ chat_ok_blank)) as (u & a & Hs & _ & Hm).
    exists u, a. split; [exact Hs|exact Hm].
Defined.

Lemma chat_timestamps_in_order_witness :
  exists (u a : Doc) (tu1 ta1 : Z),
    stored (snd (post_api_chat hello_request fresh_world)) "message" = [u; a] /\
    u !! "created_at" = Some (VTime tu1) /\
    a !! "created_at" = Some (VTime ta1) /\
    (tu1 <= ta1)%Z.
Proof.
  destruct (chat_timestamps_in_order _ _ _ _
              (run_ok no_response _ chat_ok_hello))
    as (u & a & tu1 & tu2 & ta1 & ta2 & Hs & Hu & _ & Ha & _ & H1 & H2).
  { intros i j Hij. cbn [clock fresh_world]. lia. }
  exists u, a, tu1, ta1. split; [exact Hs|]. split; [exact Hu|].
  split; [exact Ha|]. lia.
Defined.

Lemma chat_assistant_write_fails_keeps_user_witness :
  exists w',
    post_api_chat hello_request second_access_fails = (Raise StorageError, w') /\
    stored w' "message" = [user_doc_of hello_request 0 1].
Proof.
  destruct (chat_assistant_write_fails_keeps_user hello_request
              second_access_fails) as (w' & Hr & Hs & _);
    [reflexivity|discriminate|reflexivity|reflexivity|].
  exists w'. split; [exact Hr|exact Hs].
Defined.

Lemma chat_user_write_fails_writes_nothing_witness :
  exists w',
    post_api_chat hello_request first_access_fails = (Raise StorageError, w') /\
    db w' = Some ∅.
Proof.
  destruct (chat_user_write_fails_writes_nothing hello_request
              first_access_fails) as (w' & Hr & Hs & _);
    [reflexivity|discriminate|reflexivity|].
  exists w'. split; [exact Hr|exact Hs].
Defined.

Lemma chat_fails_after_writing_witness :
  exists w',
    post_api_chat hello_request broken_world = (Raise ValidationError, w') /\
    length (stored w' "message") = 3.
Proof.
  destruct (chat_fails_after_writing hello_request broken_world 0
              {[ "session_id" := VStr (lit "s1"); "content" := VStr (lit "old") ]})
    as (w' & Hr & Hs);
    [reflexivity|discriminate|intros i _; reflexivity|reflexivity|reflexivity|].
  exists w'. split; [exact Hr|]. rewrite Hs. reflexivity.
Defined.

Lemma history_is_read_only_witness :
  db (snd (history (lit "s1") legacy_world)) = db legacy_world /\
  accesses (snd (history (lit "s1") legacy_world)) =
    [Find "message" (session_filter (lit "s1")) 50].
Proof.
  destruct (history_is_read_only (lit "s1") legacy_world) as [Hd Ha].
  split; [exact Hd|].
  exact (proj1 (Ha _ _ (run_ok no_response _ history_ok_legacy))).
Defined.

Lemma history_of_unknown_session_witness :
  fst (history (lit "nobody") legacy_world) =
    Ok {| ChatResponse.session_id := lit "nobody";
          ChatResponse.messages := [] |}.
Proof.
  rewrite (history_of_unknown_session (lit "nobody") legacy_world);
    [reflexivity|discriminate|intros i _; reflexivity|reflexivity].
Defined.

Lemma response_sizes_witness :
  length (ChatResponse.messages
            (result_or no_response (fst (history (lit "s1") legacy_world)))) = 1 /\
  length (ChatResponse.messages
            (result_or no_response
               (fst (post_api_chat other_request legacy_world)))) = 2.
Proof.
  split.
  - exact (proj1 response_sizes _ _ _ _ (run_ok no_response _ history_ok_legacy)).
  - exact (proj2 response_sizes _ _ _ _ (run_ok no_response _ chat_ok_other)).
Defined.

Lemma chat_leaves_other_sessions_witness :
  history_window (lit "s1") (snd (post_api_chat other_request legacy_world)) =
  history_window (lit "s1") legacy_world.
Proof.
  apply (chat_leaves_other_sessions other_request legacy_world _ _ (lit "s1")
           (run_ok no_response _ chat_ok_other)).
  vm_compute. discriminate.
Defined.

Lemma history_after_chat_agrees_witness :
  exists w'',
    history (lit "s1") (snd (post_api_chat hello_request fresh_world)) =
      (Ok (result_or no_response (fst (post_api_chat hello_request fresh_world))),
       w'').
Proof.
  apply (history_after_chat_agrees hello_request fresh_world _ _
           (run_ok no_response _ chat_ok_hello)).
  - reflexivity.
  - apply Forall_nil_2.
Defined.

Lemma blank_message_gets_fallback_witness :
  ChatRequest.validate blank_request = true /\
  exists older mu,
    ChatResponse.messages
      (result_or no_response (fst (post_api_chat blank_request fresh_world))) =
      older ++
        [mu; {| ChatMessage.role := lit "assistant";
                ChatMessage.content := fallback_reply;
                ChatMessage.created_at := 2 |}].
Proof.
  destruct (blank_message_gets_fallback blank_request) as [Hv Hr].
  - discriminate.
  - repeat constructor.
  - split; [exact Hv|].
    destruct (Hr _ _ _ (run_ok no_response _ chat_ok_blank)) as (older & E).
    eexists older, _. exact E.
Defined.

Lemma chat_keeps_store_healthy_witness :
  exists resp w',
    post_api_chat hello_request fresh_world = (Ok resp, w') /\ healthy w'.
Proof.
  exact (chat_keeps_store_healthy hello_request fresh_world
           fresh_world_healthy eq_refl).
Defined.

Lemma history_after_turns_witness :
  length (stored (turns 60 hello_request fresh_world) "message") = 120 /\
  exists resp w',
    history (lit "s1") (turns 60 hello_request fresh_world) = (Ok resp, w') /\
    length (ChatResponse.messages resp) = 50.
Proof.
  exact (history_after_turns hello_request fresh_world 60
           fresh_world_healthy eq_refl).
Defined.

Lemma history_messages_mirror_documents_witness :
  exists m,
    ChatResponse.messages
      (result_or no_response (fst (history (lit "s1") legacy_world))) !! 0
      = Some m /\
    ChatMessage.role m = lit "user" /\ ChatMessage.content m = lit "old".
Proof.
  destruct (history_messages_mirror_documents _ _ _ _
              (run_ok no_response _ history_ok_legacy)) as (_ & Hlen & Hall).
  set (msgs := ChatResponse.messages
                 (result_or no_response (fst (history (lit "s1") legacy_world))))
    in *.
  assert (history_window (lit "s1") legacy_world =
            [ ({[ "session_id" := VStr (lit "s1"); "role" := VStr (lit "user");
                  "content" := VStr (lit "old") ]} : Doc) ]) as W
    by reflexivity.
  rewrite W in Hlen, Hall.
  destruct (lookup_lt_is_Some_2 msgs 0) as [m Hm]; [rewrite Hlen; cbn; lia|].
  destruct (Hall 0 _ m eq_refl Hm) as (_ & Hr & Hc & _).
  exists m. split; [exact Hm|].
  assert (Some (VStr (lit "user")) = Some (VStr (ChatMessage.role m))) as Er
    by exact Hr.
  assert (Some (VStr (lit "old")) = Some (VStr (ChatMessage.content m))) as Ec
    by exact Hc.
  injection Er as Er. injection Ec as Ec. by split.
Defined.

Lemma test_database_status_witness :
  exists status,
    test_database (Some failing_handle) no_env !! "database" =
      Some (JStr status) /\
    length status <= 75 /\
    status <> check_mark ++ lit " Connected & Working".
Proof.
  destruct (test_database_status (Some failing_handle) no_env)
    as (status & Hs & _ & Hl & Hw).
  exists status. split; [exact Hs|]. split; [exact Hl|].
  intros E. apply Hw in E. destruct E as [cs E]. discriminate E.
Defined.

Lemma test_database_connection_status_witness :
  test_database (Some failing_handle) no_env !! "connection_status" =
    Some (JStr (lit "Connected")).
Proof.
  apply (test_database_connection_status (Some failing_handle) no_env).
  exists failing_handle. split; [reflexivity|]. intros e. discriminate.
Defined.
